(** * uni-cloud-router: the dispatch engine of [src/Router.ts]

    A shallow embedding of the [Router] class (registration of middleware,
    controller resolution, chain selection, response and failure
    normalisation) together with the properties of its specification.

    JavaScript values are a small inductive universe, a promise is its
    settled outcome, and the mutable invocation context is threaded through
    the chain as explicit state.  The collaborators that live outside
    [Router.ts] (the transport middleware, the match-predicate factory, the
    context factory, the handler functions, the host engine) are gathered in
    the record [Host]. *)

From Stdlib Require Import String Ascii List ZArith Bool Lia.
Import ListNotations.
Local Open Scope string_scope.
Local Open Scope Z_scope.

Set Warnings "-register-all".

(** ** JavaScript values *)

Module JS.

(** Identifier of a handler function ([invoke] of the host gives its
    behaviour). *)
Definition fid := nat.

(** The values the router manipulates.  The property list of an object (or
    of a function object) is the table of what a property read on it
    yields; numbers are the integers. *)
Inductive value : Type :=
| VUndefined
| VNull
| VBool (b : bool)
| VNum (n : Z)
| VStr (s : string)
| VFun (f : fid) (props : list (string * value))
| VObj (props : list (string * value)).

(** Either a normal completion or an abrupt one carrying the thrown value;
    also the settled state of an awaited promise. *)
Inductive completion (A : Type) : Type :=
| Normal (a : A)
| Abrupt (e : value).
Arguments Normal {A} a.
Arguments Abrupt {A} e.

Definition bind {A B} (c : completion A) (k : A -> completion B) : completion B :=
  match c with
  | Normal a => k a
  | Abrupt e => Abrupt e
  end.

Declare Scope js_scope.
Delimit Scope js_scope with js.
Notation "x <- c ;; k" := (bind c (fun x => k))
  (at level 100, c at next level, right associativity) : js_scope.

(** [ToBoolean]. *)
Definition truthy (v : value) : bool :=
  match v with
  | VUndefined | VNull => false
  | VBool b => b
  | VNum n => negb (n =? 0)
  | VStr s => negb (s =? "")%string
  | VFun _ _ | VObj _ => true
  end.

(** [a || b]. *)
Definition js_or (a b : value) : value := if truthy a then a else b.

(** [typeof v === 'function']. *)
Definition is_function (v : value) : bool :=
  match v with
  | VFun _ _ => true
  | _ => false
  end.

(** [typeof v !== 'undefined']. *)
Definition is_defined (v : value) : bool :=
  match v with
  | VUndefined => false
  | _ => true
  end.

(** [v === true]. *)
Definition is_true (v : value) : bool :=
  match v with
  | VBool true => true
  | _ => false
  end.

(** [v === 'error'] and the like: strict equality with a string literal. *)
Definition is_string (lit : string) (v : value) : bool :=
  match v with
  | VStr s => (s =? lit)%string
  | _ => false
  end.

(** Reading key [k] in a property table: [undefined] when it is missing. *)
Fixpoint lookup (k : string) (props : list (string * value)) : value :=
  match props with
  | [] => VUndefined
  | (k', v) :: rest => if (k' =? k)%string then v else lookup k rest
  end.

(** Whether key [k] is in a property table at all. *)
Fixpoint has_key (k : string) (props : list (string * value)) : bool :=
  match props with
  | [] => false
  | (k', _) :: rest => (k' =? k)%string || has_key k rest
  end.

(** An [Error]-like object as the engine builds it. *)
Definition error_object (name message stack : string) : value :=
  VObj [("name", VStr name); ("message", VStr message); ("stack", VStr stack)].

End JS.
Import JS.
Local Open Scope js_scope.

(** ** Strings: the operations of [String.prototype] the router uses *)

Module Str.

Definition slash : ascii := "/"%char.

(** [s.split(sep)] for a one-character separator. *)
Fixpoint split (sep : ascii) (s : string) : list string :=
  match s with
  | EmptyString => [EmptyString]
  | String c rest =>
      if Ascii.eqb c sep then EmptyString :: split sep rest
      else match split sep rest with
           | [] => [String c EmptyString]
           | h :: t => String c h :: t
           end
  end.

(** [Boolean(s)] for a string, as [filter(Boolean)] uses it. *)
Definition nonempty (s : string) : bool := negb (s =? "")%string.

(** [Some p] when [s = p ++ suffix]. *)
Fixpoint strip_suffix (suffix s : string) : option string :=
  if (s =? suffix)%string then Some EmptyString
  else match s with
       | EmptyString => None
       | String c rest =>
           match strip_suffix suffix rest with
           | Some p => Some (String c p)
           | None => None
           end
       end.

(** Characters with a meaning of their own in a regular-expression source. *)
Definition regexp_special (c : ascii) : bool :=
  existsb (Ascii.eqb c)
    ["^"; "$"; "\"; "."; "*"; "+"; "?"; "("; ")"; "["; "]"; "{"; "}"; "|"]%char.

Fixpoint forallb_string (p : ascii -> bool) (s : string) : bool :=
  match s with
  | EmptyString => true
  | String c rest => p c && forallb_string p rest
  end.

(** A source every character of which matches itself. *)
Definition regexp_literal (s : string) : bool :=
  forallb_string (fun c => negb (regexp_special c)) s.

(** A replacement text without [$] substitution patterns. *)
Definition plain_replacement (s : string) : bool :=
  forallb_string (fun c => negb (Ascii.eqb c "$"%char)) s.

(** A string without [/]; one segment of an action; a string of [/] only. *)
Definition no_slash (s : string) : bool :=
  forallb_string (fun c => negb (Ascii.eqb c slash)) s.
Definition segment (s : string) : bool := nonempty s && no_slash s.

End Str.

(** ** The invocation context and the functions that run in the chain *)

(** The per-invocation context [createContext] builds: the raw event, the
    raw platform context, the handler namespace, the result slot and the
    request-scoped state. *)
Record Ctx : Type := mkCtx {
  event : value;
  context : value;
  controllers : value;      (* ctx.controller *)
  body : value;
  state : value
}.

Definition set_body (v : value) (c : Ctx) : Ctx :=
  {| event := event c; context := context c; controllers := controllers c;
     body := v; state := state c |}.

(** What an asynchronous middleware function [(ctx, next) => ...] does: it
    returns, throws, reads or mutates [ctx], or awaits [next()] and goes on
    with its settled outcome (so a [try]/[catch] around [next()] is
    expressible). *)
Inductive act : Type :=
| Return (v : value)
| Throw (e : value)
| Get (k : Ctx -> act)
| Put (c : Ctx) (k : act)
| AwaitNext (k : completion value -> act).

(** A middleware function value: its [name], its [_name] tag and its
    behaviour. *)
Record jsfunc : Type := mkFun {
  fn_name : string;
  fn_tag : value;
  fn_body : act
}.

(** The first argument of [use]: a function, or some other value. *)
Inductive useArg : Type :=
| ArgFn (f : jsfunc)
| ArgOther (v : value).

(** [RouterOptions]; [cfg_middleware] is [None] when the [middleware] field
    is not an array. *)
Record RouterOptions : Type := mkOptions {
  debug : value;
  baseDir : value;
  cfg_middleware : option (list (useArg * value))
}.

(** [config || {}]. *)
Definition empty_options : RouterOptions :=
  {| debug := VUndefined; baseDir := VUndefined; cfg_middleware := None |}.

(** The final state of the promise [serve] returns. *)
Inductive settle : Type :=
| Resolved (v : value)
| Rejected (e : value)
| Pending.

(** The collaborators of [Router.ts] and the host engine. *)
Record Host : Type := mkHost {
  FAILED_CODE : value;                 (* utils *)
  runInUniCloud : bool;                (* utils *)
  uniCloud_args : value;               (* uniCloud.$args *)
  uniCloud_ctx : value;                (* uniCloud.$ctx *)
  cwd : string;                        (* process.cwd() *)
  pathResolve : value -> string -> completion string;
  createContext : RouterOptions -> value -> value -> string -> string -> Ctx;
  parseAction : value -> value;        (* middleware/http *)
  createRouteMatch : value -> Ctx -> bool;   (* utils *)
  httpDecode : Ctx -> completion Ctx;  (* middleware/http, before next() *)
  httpEncode : Ctx -> completion Ctx;  (* middleware/http, after next() *)
  invoke : fid -> value -> Ctx -> Ctx * completion value;  (* method.call(receiver, ctx), awaited *)
  primProp : value -> string -> value; (* property read on a boolean, number or string *)
  regexpReplace : string -> string -> string -> completion string;
                                       (* subject.replace(new RegExp(source), replacement) *)
  stackTrace : string -> string;       (* the stack text of an error created here *)
  adopt : value -> settle              (* how a promise resolved with this thenable settles *)
}.

(** One record of the execution log, which the model keeps beside the
    context to tell what ran: a middleware function was entered, the
    synthetic error handler ran, or a handler method was called. *)
Inductive call : Type :=
| CallFn (f : jsfunc)
| CallError (message : string)
| CallMethod (f : fid) (receiver : value).

(** The state one invocation threads through its chain: the context, the
    [index] variable of the composed function, and the log. *)
Record world : Type := mkWorld {
  w_ctx : Ctx;
  w_index : Z;
  w_calls : list call
}.

Definition with_ctx (c : Ctx) (w : world) : world :=
  {| w_ctx := c; w_index := w_index w; w_calls := w_calls w |}.
Definition with_index (i : Z) (w : world) : world :=
  {| w_ctx := w_ctx w; w_index := i; w_calls := w_calls w |}.
Definition record_call (c : call) (w : world) : world :=
  {| w_ctx := w_ctx w; w_index := w_index w; w_calls := w_calls w ++ [c] |}.

(** A promise-returning step of the chain. *)
Definition step : Type := world -> world * completion value.

(** Running a middleware body against the continue capability [next]. *)
Fixpoint run (a : act) (next : step) (w : world) : world * completion value :=
  match a with
  | Return v => (w, Normal v)
  | Throw e => (w, Abrupt e)
  | Get k => run (k (w_ctx w)) next w
  | Put c k => run k next (with_ctx c w)
  | AwaitNext k => let (w', r) := next w in run (k r) next w'
  end.

(** The entries of a composed chain, one constructor per function literal. *)
Inductive middleware : Type :=
| Plain (f : jsfunc)                                   (* a function as it is *)
| Wrapper (tag : value) (matchFn : Ctx -> bool) (fn : jsfunc)   (* [mw] of wrapMiddleware *)
| ErrorHandler (message : string)                      (* error(message) *)
| Action (tag : value) (receiver : value) (method : fid).      (* [middleware] of controller *)

(** The [_name] of a chain entry. *)
Definition mw_name (m : middleware) : value :=
  match m with
  | Plain f => fn_tag f
  | Wrapper tag _ _ => tag
  | ErrorHandler _ => VStr "error"
  | Action tag _ _ => tag
  end.

(** [Router] instances. *)
Record Router : Type := mkRouter {
  config : RouterOptions;
  middleware_of : list middleware;      (* this.middleware *)
  serviceDir : string;
  controllerDir : string
}.

Definition SERVICE_DIR : string := "service".
Definition CONTROLLER_DIR : string := "controller".
Definition dquote : string := String (Ascii.ascii_of_nat 34) EmptyString.

(** ** The router *)

Section RouterModel.

Variable E : Host.

(** [new TypeError(message)] and [new Error(message)]. *)
Definition TypeError (message : string) : value :=
  error_object "TypeError" message (stackTrace E message).
Definition Error (message : string) : value :=
  error_object "Error" message (stackTrace E message).

(** The word for [undefined] or [null] in the message of the engine. *)
Definition nullish_name (v : value) : string :=
  match v with
  | VNull => "null"
  | _ => "undefined"
  end.

(** [v[k]] on a value that is neither [undefined] nor [null]. *)
Definition read (v : value) (k : string) : value :=
  match v with
  | VObj props | VFun _ props => lookup k props
  | _ => primProp E v k
  end.

(** [v[k]]: reading a property of [undefined] or [null] throws (the message
    is the one of V8). *)
Definition get_prop (v : value) (k : string) : completion value :=
  match v with
  | VUndefined | VNull =>
      Abrupt (TypeError ("Cannot read properties of " ++ nullish_name v
                         ++ " (reading '" ++ k ++ "')"))
  | _ => Normal (read v k)
  end.

(** [subject.replace(new RegExp('/' + m + '$'), replacement)].  When [m] is
    made of literal characters the only possible match is the suffix
    ['/' + m] of the subject, and a replacement without [$] is inserted as
    it is; any other pattern is left to the engine. *)
Definition replace_tail (subject m replacement : string) : completion string :=
  if Str.regexp_literal m && Str.plain_replacement replacement then
    match Str.strip_suffix ("/" ++ m) subject with
    | Some p => Normal (p ++ replacement)
    | None => Normal subject
    end
  else regexpReplace E ("/" ++ m ++ "$") subject replacement.

(** Modelled from the spec: the transport middleware [http] of
    middleware/http, which is not part of Router.ts.  It decodes the raw
    event into request-level fields of the context, awaits the rest of the
    chain, and may rewrite the context on the way out; a failure of either
    phase or of the rest of the chain is its own failure. *)
Definition http_body : act :=
  Get (fun c =>
    match httpDecode E c with
    | Abrupt e => Throw e
    | Normal c1 =>
        Put c1 (AwaitNext (fun r =>
          match r with
          | Abrupt e => Throw e
          | Normal _ =>
              Get (fun c2 =>
                match httpEncode E c2 with
                | Abrupt e => Throw e
                | Normal c3 => Put c3 (Return VUndefined)
                end)
          end))
    end).

Definition http : jsfunc :=
  {| fn_name := "http"; fn_tag := VUndefined; fn_body := http_body |}.

(** Modelled from the spec: [error(message)] of middleware/error, which is
    not part of Router.ts.  It yields a handler tagged [error] (see
    [mw_name]) whose execution throws an error carrying [message]. *)
Definition error (message : string) : middleware := ErrorHandler message.

(** Calling a function value with [(ctx, next)]. *)
Definition call_fn (f : jsfunc) (next : step) (w : world) : world * completion value :=
  run (fn_body f) next (record_call (CallFn f) w).

(** Calling a chain entry with [(ctx, next)]: the bodies of the function
    literals [mw] (wrapMiddleware) and [middleware] (controller). *)
Definition apply (m : middleware) (next : step) (w : world) : world * completion value :=
  match m with
  | Plain f => call_fn f next w
  | Wrapper _ matchFn fn =>
      if negb (matchFn (w_ctx w)) then next w
      else call_fn fn next w
  | ErrorHandler message =>
      (record_call (CallError message) w, Abrupt (Error message))
  | Action _ receiver method =>
      let w0 := record_call (CallMethod method receiver) w in
      let (c, ret) := invoke E method receiver (w_ctx w0) in
      match ret with
      | Abrupt e => (with_ctx c w0, Abrupt e)
      | Normal v =>
          if is_defined v then (with_ctx (set_body v c) w0, Normal VUndefined)
          else (with_ctx c w0, Normal VUndefined)
      end
  end.

(** Modelled from the spec: [compose] of the library koa-compose, which is
    not part of Router.ts.  [dispatch rest i] is its inner [dispatch(i)],
    [rest] being the entries from position [i] on: a second call of the same
    [next] is refused, past the last entry the promise resolves, and entry
    [i] is called with [dispatch(i + 1)] as its [next]. *)
Fixpoint dispatch (rest : list middleware) (i : Z) (w : world) : world * completion value :=
  if i <=? w_index w then (w, Abrupt (Error "next() called multiple times"))
  else
    let w1 := with_index i w in
    match rest with
    | [] => (w1, Normal VUndefined)
    | m :: rest' => apply m (dispatch rest' (i + 1)) w1
    end.

Definition compose (chain : list middleware) (ctx : Ctx) : world * completion value :=
  dispatch chain 0 {| w_ctx := ctx; w_index := -1; w_calls := [] |}.

(** [wrapMiddleware(fn, options)]. *)
Definition wrapMiddleware (fn : jsfunc) (options : value) : middleware :=
  let matchFn := createRouteMatch E options in
  let name0 := if truthy options && truthy (read options "name")
               then read options "name" else VUndefined in
  let name1 := if negb (truthy name0)
               then js_or (fn_tag fn) (VStr (fn_name fn)) else name0 in
  Wrapper name1 matchFn fn.

(** [use(fn, options)]. *)
Definition use (r : Router) (fn : useArg) (options : value) : completion Router :=
  match fn with
  | ArgOther _ => Abrupt (TypeError "middleware must be a function")
  | ArgFn f =>
      Normal {| config := config r;
                middleware_of := middleware_of r ++ [wrapMiddleware f options];
                serviceDir := serviceDir r;
                controllerDir := controllerDir r |}
  end.

(** [middleware.forEach(([mw, options]) => this.use(mw, options))]. *)
Fixpoint use_all (r : Router) (entries : list (useArg * value)) : completion Router :=
  match entries with
  | [] => Normal r
  | (mw, options) :: rest => r1 <- use r mw options ;; use_all r1 rest
  end.

Definition http_options : value := VObj [("name", VStr "http")].

(** [initMiddleware(middleware)]. *)
Definition initMiddleware (r : Router) (mws : option (list (useArg * value)))
  : completion Router :=
  r1 <- use r (ArgFn http) http_options ;;
  match mws with
  | None => Normal r1
  | Some entries => use_all r1 entries
  end.

(** [new Router(config)]. *)
Definition new_Router (cfg : option RouterOptions) : completion Router :=
  let config := match cfg with Some c => c | None => empty_options end in
  let base := if is_defined (baseDir config) then baseDir config else VStr (cwd E) in
  sdir <- pathResolve E base SERVICE_DIR ;;
  cdir <- pathResolve E base CONTROLLER_DIR ;;
  initMiddleware {| config := config; middleware_of := [];
                    serviceDir := sdir; controllerDir := cdir |}
                 (cfg_middleware config).

(** [paths[i]] on an array of strings: [None] is [undefined]. *)
Definition element (paths : list string) (i : Z) : option string :=
  if i <? 0 then None else nth_error paths (Z.to_nat i).

(** A method name inside a string concatenation or as a property key. *)
Definition to_key (m : option string) : string :=
  match m with
  | Some s => s
  | None => "undefined"
  end.

Definition opt_value (m : option string) : value :=
  match m with
  | Some s => VStr s
  | None => VUndefined
  end.

(** The loop [for (i = 0; i < len - 1; i++) controller = controller[paths[i]]],
    [segs] being [paths[0 .. len - 2]]. *)
Fixpoint walk (controller : value) (segs : list string) : completion value :=
  match segs with
  | [] => Normal controller
  | s :: rest => c <- get_prop controller s ;; walk c rest
  end.

(** [controller(ctx)]. *)
Definition controller (ctx : Ctx) : completion middleware :=
  let action := parseAction E (event ctx) in
  if negb (truthy action) then Normal (error "action is required")
  else
    match action with
    | VStr action =>
        let paths := filter Str.nonempty (Str.split Str.slash action) in
        let len := Z.of_nat (length paths) in
        if len =? 1 then
          Normal (error ("action must contain " ++ dquote ++ "/" ++ dquote))
        else
          let methodName := element paths (len - 1) in
          controller <- walk (controllers ctx) (firstn (Z.to_nat (len - 1)) paths) ;;
          if negb (truthy controller) then
            path <- replace_tail action (to_key methodName) "" ;;
            Normal (error ("controller/" ++ path ++ " not found"))
          else
            let method := read controller (to_key methodName) in
            match method with
            | VFun f _ => Normal (Action (opt_value methodName) controller f)
            | _ =>
                path <- replace_tail action (to_key methodName)
                                     ("." ++ to_key methodName) ;;
                Normal (error ("controller/" ++ path ++ " is not a function"))
            end
    | _ => Abrupt (TypeError "action.split is not a function")
    end.

(** [failed(err)]. *)
Definition failed (r : Router) (err : value) : completion value :=
  code <- get_prop err "code" ;;
  message <- get_prop err "message" ;;
  let ret := [("code", js_or code (FAILED_CODE E)); ("message", js_or message err)] in
  if is_true (debug (config r)) then
    stack <- get_prop err "stack" ;;
    Normal (VObj (ret ++ [("stack", js_or stack (VStr ""))]))
  else Normal (VObj ret).

(** [respond(ctx)]. *)
Definition respond (ctx : Ctx) : value := body ctx.

(** The context [serve] creates. *)
Definition serve_context (r : Router) (event context : value) : Ctx :=
  createContext E (config r)
    (js_or event (if runInUniCloud E then uniCloud_args E else VBool false))
    (js_or context (if runInUniCloud E then uniCloud_ctx E else VBool false))
    (serviceDir r) (controllerDir r).

(** The chain [serve] composes around the resolved [controller]. *)
Definition chain_for (r : Router) (controller : middleware) : list middleware :=
  if is_string "error" (mw_name controller) then [Plain http; controller]
  else middleware_of r ++ [controller].

(** The chain's execution in [serve]: [None] when [controller(ctx)] threw
    and nothing was composed, else the final state and the outcome of
    [fn(ctx)]. *)
Definition serve_chain (r : Router) (event context : value)
  : option (world * completion value) :=
  let ctx := serve_context r event context in
  match controller ctx with
  | Abrupt _ => None
  | Normal c => Some (compose (chain_for r c) ctx)
  end.

(** An object or function with a callable [then]. *)
Definition is_thenable (v : value) : bool :=
  match v with
  | VObj _ | VFun _ _ => is_function (read v "then")
  | _ => false
  end.

(** [resolve(v)] of the promise [serve] builds: a thenable is adopted, and
    the promise settles as the thenable makes it; any other value fulfils
    the promise. *)
Definition deliver (v : value) : settle :=
  if is_thenable v then adopt E v else Resolved v.

(** [serve(event, context)]: how the returned promise settles.  An
    exception of the synchronous prefix rejects it; the executor calls
    [resolve] when the chain has settled and the result was built; when
    [failed] itself throws inside the catch callback [resolve] is never
    called. *)
Definition serve (r : Router) (event context : value) : settle :=
  let ctx := serve_context r event context in
  match controller ctx with
  | Abrupt e => Rejected e
  | Normal c =>
      let (w, outcome) := compose (chain_for r c) ctx in
      match outcome with
      | Normal _ => deliver (respond (w_ctx w))
      | Abrupt err =>
          match failed r err with
          | Normal ret => deliver ret
          | Abrupt _ => Pending
          end
      end
  end.

End RouterModel.

(** ** A concrete host, for running the router on examples *)

Module Demo.

(** Options of the form [{ enable: false }] never match; all others do. *)
Definition routeMatch (options : value) (_ : Ctx) : bool :=
  match options with
  | VObj props => match lookup "enable" props with
                  | VBool false => false
                  | _ => true
                  end
  | _ => true
  end.

(** A thenable of the examples settles as its table says: rejected with
    its [reason] when it has one, else fulfilled with its [value]. *)
Definition settles_as (v : value) : settle :=
  match v with
  | VObj props | VFun _ props =>
      if has_key "reason" props then Rejected (lookup "reason" props)
      else Resolved (lookup "value" props)
  | _ => Pending
  end.

(** A host outside uniCloud whose handler namespace is [tree] and whose
    handler functions behave as [handlers] says. *)
Definition host (tree : value) (handlers : fid -> value -> Ctx -> Ctx * completion value)
  : Host :=
  {| FAILED_CODE := VStr "INTERNAL_ERROR";
     runInUniCloud := false;
     uniCloud_args := VUndefined;
     uniCloud_ctx := VUndefined;
     cwd := "/var/task";
     pathResolve := fun base dir =>
       match base with
       | VStr b => Normal (b ++ "/" ++ dir)
       | _ => Abrupt (VStr "ERR_INVALID_ARG_TYPE")
       end;
     createContext := fun _ ev cx _ _ =>
       {| event := ev; context := cx; controllers := tree;
          body := VUndefined; state := VObj [] |};
     parseAction := fun ev =>
       match ev with
       | VObj props => lookup "action" props
       | _ => VUndefined
       end;
     createRouteMatch := routeMatch;
     httpDecode := fun c => Normal c;
     httpEncode := fun c => Normal c;
     invoke := handlers;
     primProp := fun _ _ => VUndefined;
     regexpReplace := fun _ subject _ => Normal subject;
     stackTrace := fun message => "Error: " ++ message;
     adopt := settles_as |}.

(** An event carrying the given action. *)
Definition request (action : string) : value := VObj [("action", VStr action)].

(** Handler functions: 0 returns the number 7, 1 throws
    [{ code: 42, message: "boom" }], 2 throws [null], 3 returns nothing,
    4 throws [{ code: 42, message: "" }], 5 throws
    [{ code: 0, message: "boom" }]. *)
Definition handlers (f : fid) (_ : value) (c : Ctx) : Ctx * completion value :=
  match f with
  | 0%nat => (c, Normal (VNum 7))
  | 1%nat => (c, Abrupt (VObj [("code", VNum 42); ("message", VStr "boom")]))
  | 2%nat => (c, Abrupt VNull)
  | 3%nat => (c, Normal VUndefined)
  | 4%nat => (c, Abrupt (VObj [("code", VNum 42); ("message", VStr "")]))
  | _ => (c, Abrupt (VObj [("code", VNum 0); ("message", VStr "boom")]))
  end.

(** The namespace
    [{ ns: { sub: { run, fail, failNull, quiet, blank, zero, data, doThing } } }],
    the last two members not being functions. *)
Definition tree : value :=
  VObj [("ns", VObj [("sub", VObj [("run", VFun 0%nat []); ("fail", VFun 1%nat []);
                                   ("failNull", VFun 2%nat []); ("quiet", VFun 3%nat []);
                                   ("blank", VFun 4%nat []); ("zero", VFun 5%nat []);
                                   ("data", VNum 1);
                                   ("doThing", VStr "not callable")])])].

(** A user middleware that counts its runs in [ctx.state] and continues. *)
Definition counter : jsfunc :=
  {| fn_name := "counter"; fn_tag := VUndefined;
     fn_body :=
       Get (fun c =>
         Put {| event := event c; context := context c; controllers := controllers c;
                body := body c;
                state := match state c with
                         | VNum n => VNum (n + 1)
                         | _ => VNum 1
                         end |}
             (AwaitNext (fun r => match r with
                                  | Normal v => Return v
                                  | Abrupt e => Throw e
                                  end))) |}.

Definition options (debug : value) (mws : list (useArg * value)) : RouterOptions :=
  {| debug := debug; baseDir := VStr "/app"; cfg_middleware := Some mws |}.

(** The router built from [options] on host [E]; a router without
    middleware stands in when the construction throws. *)
Definition router (E : Host) (o : RouterOptions) : Router :=
  match new_Router E (Some o) with
  | Normal r => r
  | Abrupt _ => {| config := o; middleware_of := []; serviceDir := ""; controllerDir := "" |}
  end.

End Demo.


(** ** Reference values for the statements *)

(** The failure object a fresh error with message [m], thrown in the chain,
    is normalised to: the default code, the message, and the stack when
    debugging. *)
Definition usage_failure (E : Host) (r : Router) (m : string) : value :=
  VObj ([("code", FAILED_CODE E); ("message", VStr m)]
        ++ (if is_true (debug (config r))
            then [("stack", VStr (stackTrace E m))] else [])).

(** The attribute [k] of a failure value, when the value has one. *)
Definition attribute (err : value) (k : string) : option value :=
  match err with
  | VObj props | VFun _ props =>
      if has_key k props then Some (lookup k props) else None
  | _ => None
  end.

(** The failure object in the words of the specification: each field is
    the attribute of the failure if present, else its default. *)
Definition failure_as_specified (E : Host) (r : Router) (err : value) : value :=
  VObj ([("code", match attribute err "code" with
                  | Some c => c
                  | None => FAILED_CODE E
                  end);
         ("message", match attribute err "message" with
                     | Some m => m
                     | None => err
                     end)]
        ++ (if is_true (debug (config r))
            then [("stack", match attribute err "stack" with
                            | Some s => s
                            | None => VStr ""
                            end)]
            else [])).

(** The entry [initMiddleware] registers first. *)
Definition http_entry (E : Host) : middleware :=
  wrapMiddleware E (http E) http_options.

(** The invariant of [this.middleware]. *)
Definition starts_with_http (E : Host) (r : Router) : Prop :=
  exists rest, middleware_of r = http_entry E :: rest.

(** What ran during an invocation: the log of the chain, empty when no
    chain was composed. *)
Definition executed (E : Host) (r : Router) (ev cx : value) : list call :=
  match serve_chain E r ev cx with
  | Some (w, _) => w_calls w
  | None => []
  end.

(** The state in which [compose] starts a chain on [ctx]. *)
Definition start (ctx : Ctx) : world :=
  {| w_ctx := ctx; w_index := -1; w_calls := [] |}.

(** [v] is [undefined] or [null]. *)
Definition nullish (v : value) : bool :=
  match v with
  | VUndefined | VNull => true
  | _ => false
  end.

(** The log only grows at its end. *)
Definition extends_log (next : step) : Prop :=
  forall w, exists more, w_calls (fst (next w)) = (w_calls w ++ more)%list.

(** ** The routers of the examples *)

(** The host of the examples and its router without configured
    middleware. *)
Definition demoHost : Host := Demo.host Demo.tree Demo.handlers.
Definition demoRouter : Router := Demo.router demoHost (Demo.options VUndefined []).
Definition debugRouter : Router := Demo.router demoHost (Demo.options (VBool true) []).

(** A host whose handler namespace is empty. *)
Definition emptyHost : Host := Demo.host (VObj []) Demo.handlers.
Definition emptyRouter : Router := Demo.router emptyHost (Demo.options VUndefined []).

(** A router with one configured user middleware. *)
Definition countingRouter : Router :=
  Demo.router demoHost (Demo.options VUndefined [(ArgFn Demo.counter, VUndefined)]).


(** Failure values with an attribute that is present but falsy. *)
Definition blankMessage : value := VObj [("code", VNum 42); ("message", VStr "")].
Definition zeroCode : value := VObj [("code", VNum 0); ("message", VStr "boom")].

(** ** Further notions for the properties of the code *)

(** The segments of an action: [action.split('/').filter(Boolean)]. *)
Definition paths_of (action : string) : list string :=
  filter Str.nonempty (Str.split Str.slash action).

(** [segs.join('/')]. *)
Fixpoint join (segs : list string) : string :=
  match segs with
  | [] => ""
  | s :: rest =>
      match rest with
      | [] => s
      | _ :: _ => s ++ "/" ++ join rest
      end
  end.

(** Every element is one well-formed segment. *)
Definition segments (segs : list string) : bool := forallb Str.segment segs.







(** A middleware body that settles without ever calling [next]. *)
Inductive settles_alone : act -> Prop :=
| alone_return (v : value) : settles_alone (Return v)
| alone_throw (e : value) : settles_alone (Throw e)
| alone_get (k : Ctx -> act) : (forall c, settles_alone (k c)) -> settles_alone (Get k)
| alone_put (c : Ctx) (k : act) : settles_alone k -> settles_alone (Put c k).

(** Where a record of the log can come from, given the composed chain: a
    function passed as it is, a wrapped function whose predicate can hold,
    the error handler, or the resolved method with its receiver. *)
Definition entered_from (chain : list middleware) (c : call) : Prop :=
  match c with
  | CallFn f =>
      In (Plain f) chain
      \/ exists tag matchFn, In (Wrapper tag matchFn f) chain
                             /\ exists ctx, matchFn ctx = true
  | CallError m => In (ErrorHandler m) chain
  | CallMethod f receiver => exists tag, In (Action tag receiver f) chain
  end.

(** The entries [wrapMiddleware] builds from configured functions. *)
Definition wrap_all (E : Host) (fs : list (jsfunc * value)) : list middleware :=
  map (fun p => wrapMiddleware E (fst p) (snd p)) fs.

(** Configured middleware all of which are functions. *)
Definition as_entries (fs : list (jsfunc * value)) : list (useArg * value) :=
  map (fun p => (ArgFn (fst p), snd p)) fs.

(** [config || {}] in the constructor. *)
Definition config_of (cfg : option RouterOptions) : RouterOptions :=
  match cfg with
  | Some c => c
  | None => empty_options
  end.

(** The directory [new Router] resolves the service and controller
    directories against. *)
Definition base_of (E : Host) (o : RouterOptions) : value :=
  if is_defined (baseDir o) then baseDir o else VStr (cwd E).

(** The record a chain entry leaves in the log when it is entered. *)
Definition call_of (m : middleware) : call :=
  match m with
  | Plain f => CallFn f
  | Wrapper _ _ fn => CallFn fn
  | ErrorHandler message => CallError message
  | Action _ receiver method => CallMethod method receiver
  end.

(** [l] is [big] with some elements left out, the order kept. *)
Inductive subseq {A : Type} : list A -> list A -> Prop :=
| subseq_nil : subseq [] []
| subseq_skip (x : A) (l big : list A) : subseq l big -> subseq l (x :: big)
| subseq_take (x : A) (l big : list A) : subseq l big -> subseq (x :: l) (x :: big).

(** What a step that stands for [dispatch(j)] over the entries logged as
    [later] does: called again it is refused and changes nothing; called
    for the first time it logs some of [later], in order, and leaves the
    index at [j] or beyond. *)
Definition dispatches (E : Host) (j : Z) (later : list call) (next : step) : Prop :=
  forall w,
    (j <= w_index w -> next w = (w, Abrupt (Error E "next() called multiple times")))
    /\ (w_index w < j ->
        j <= w_index (fst (next w))
        /\ exists l, w_calls (fst (next w)) = (w_calls w ++ l)%list /\ subseq l later).

(** A record of a handler method. *)
Definition is_method_call (c : call) : bool :=
  match c with
  | CallMethod _ _ => true
  | _ => false
  end.

(** The entries [use] builds are wrappers. *)
Definition is_wrapper (m : middleware) : bool :=
  match m with
  | Wrapper _ _ _ => true
  | _ => false
  end.

(** A host whose namespace has a handler named [error], and a router with
    one configured user middleware on it. *)
Definition errorNamedHost : Host :=
  Demo.host (VObj [("ns", VObj [("error", VFun 0%nat [])])]) Demo.handlers.
Definition errorNamedRouter : Router :=
  Demo.router errorNamedHost (Demo.options VUndefined [(ArgFn Demo.counter, VUndefined)]).

(** A user middleware that answers by itself and does not continue. *)
Definition shortcut : jsfunc :=
  {| fn_name := "shortcut"; fn_tag := VUndefined;
     fn_body := Get (fun c => Put (set_body (VStr "cached") c) (Return VUndefined)) |}.
Definition shortcutRouter : Router :=
  Demo.router demoHost (Demo.options VUndefined [(ArgFn shortcut, VUndefined)]).

(** A user middleware that calls [next] twice and settles with the second
    outcome. *)
Definition twice : jsfunc :=
  {| fn_name := "twice"; fn_tag := VUndefined;
     fn_body := AwaitNext (fun _ =>
                  AwaitNext (fun r => match r with
                                      | Normal v => Return v
                                      | Abrupt e => Throw e
                                      end)) |}.
Definition twiceRouter : Router :=
  Demo.router demoHost (Demo.options VUndefined [(ArgFn twice, VUndefined)]).

(** A router whose configured middleware is disabled by its options. *)
Definition disabledRouter : Router :=
  Demo.router demoHost
    (Demo.options VUndefined [(ArgFn Demo.counter, VObj [("enable", VBool false)])]).

(** * Properties *)

(** ** Strings *)

Module StrFacts.
Import Str.

Lemma split_no_slash (s : string) :
  no_slash s = true -> split slash s = [s].
Proof.
  induction s as [|c s IH]; simpl; intros H; [reflexivity|].
  apply andb_true_iff in H as [Hc Hs].
  apply negb_true_iff in Hc. rewrite Hc, (IH Hs). reflexivity.
Qed.

Lemma split_app_slash (s t : string) :
  no_slash s = true ->
  split slash (s ++ String slash t) = s :: split slash t.
Proof.
  induction s as [|c s IH]; simpl; intros H; [reflexivity|].
  apply andb_true_iff in H as [Hc Hs].
  apply negb_true_iff in Hc. rewrite Hc, (IH Hs). reflexivity.
Qed.

Lemma strip_suffix_refl (suf : string) : strip_suffix suf suf = Some EmptyString.
Proof.
  destruct suf; simpl; [reflexivity|].
  rewrite Ascii.eqb_refl, String.eqb_refl. reflexivity.
Qed.

Lemma length_app (s t : string) :
  String.length (s ++ t) = (String.length s + String.length t)%nat.
Proof.
  induction s as [|c s IH]; simpl; [reflexivity|]. rewrite IH. reflexivity.
Qed.

Lemma longer_neq (c : ascii) (p suf : string) :
  (String c (p ++ suf) =? suf)%string = false.
Proof.
  apply String.eqb_neq. intros H.
  apply (f_equal String.length) in H. simpl in H.
  rewrite length_app in H. lia.
Qed.

Lemma strip_suffix_cons (suf : string) (c : ascii) (s : string) :
  strip_suffix suf (String c s) =
  if (String c s =? suf)%string then Some EmptyString
  else match strip_suffix suf s with
       | Some p => Some (String c p)
       | None => None
       end.
Proof. reflexivity. Qed.

Lemma strip_suffix_app (suf p : string) :
  strip_suffix suf (p ++ suf) = Some p.
Proof.
  induction p as [|c p IH].
  - apply strip_suffix_refl.
  - change (String c p ++ suf)%string with (String c (p ++ suf)).
    rewrite strip_suffix_cons, longer_neq, IH. reflexivity.
Qed.





End StrFacts.

(** ** The controller resolver *)

Section ResolverFacts.

Variable E : Host.

Lemma append_assoc (s t u : string) : ((s ++ t) ++ u = s ++ (t ++ u))%string.
Proof.
  induction s as [|c s IH]; simpl; [reflexivity|]. rewrite IH. reflexivity.
Qed.

Lemma append_nil_r (s : string) : (s ++ "" = s)%string.
Proof.
  induction s as [|c s IH]; simpl; [reflexivity|]. rewrite IH. reflexivity.
Qed.

Lemma literal_is_plain (m : string) :
  Str.regexp_literal m = true -> Str.plain_replacement m = true.
Proof.
  unfold Str.regexp_literal, Str.plain_replacement.
  induction m as [|c m IH]; cbn [Str.forallb_string]; intros H; [reflexivity|].
  apply andb_true_iff in H as [Hc Hm].
  rewrite (IH Hm), andb_true_r.
  destruct (Ascii.eqb c "$") eqn:Hd; [|reflexivity].
  apply Ascii.eqb_eq in Hd. subst c. discriminate.
Qed.

(** On a literal method name the replacement rewrites exactly the suffix
    ['/' + m]. *)
Lemma replace_tail_suffix (p m repl : string) :
  Str.regexp_literal m = true -> Str.plain_replacement repl = true ->
  replace_tail E (p ++ "/" ++ m) m repl = Normal (p ++ repl)%string.
Proof.
  intros Hm Hr. unfold replace_tail. rewrite Hm, Hr. simpl andb. cbv iota.
  rewrite StrFacts.strip_suffix_app. reflexivity.
Qed.


Lemma get_prop_present (v : value) (k : string) :
  nullish v = false -> get_prop E v k = Normal (read E v k).
Proof. destruct v; try discriminate; reflexivity. Qed.

Lemma get_prop_nullish (v : value) (k : string) :
  nullish v = true ->
  get_prop E v k
  = Abrupt (TypeError E ("Cannot read properties of " ++ nullish_name v
                         ++ " (reading '" ++ k ++ "')")).
Proof. destruct v; try discriminate; reflexivity. Qed.

Lemma paths_of_empty : filter Str.nonempty (Str.split Str.slash "") = [].
Proof. reflexivity. Qed.

(** The segments of [ns/sub/m]. *)
Lemma paths_of_three (ns sub m : string) :
  Str.segment ns = true -> Str.segment sub = true -> Str.segment m = true ->
  filter Str.nonempty (Str.split Str.slash (ns ++ "/" ++ sub ++ "/" ++ m))
  = [ns; sub; m].
Proof.
  unfold Str.segment. intros Hn Hs Hm.
  apply andb_true_iff in Hn as [Hn1 Hn2].
  apply andb_true_iff in Hs as [Hs1 Hs2].
  apply andb_true_iff in Hm as [Hm1 Hm2].
  change ("/" ++ sub ++ "/" ++ m)%string with (String Str.slash (sub ++ String Str.slash m)).
  rewrite (StrFacts.split_app_slash ns _ Hn2), (StrFacts.split_app_slash sub _ Hs2),
          (StrFacts.split_no_slash m Hm2).
  simpl. rewrite Hn1, Hs1, Hm1. reflexivity.
Qed.

(** An absent or empty action. *)
Lemma controller_without_action (ctx : Ctx) :
  truthy (parseAction E (event ctx)) = false ->
  controller E ctx = Normal (error "action is required").
Proof.
  intros H. unfold controller. rewrite H. reflexivity.
Qed.

(** An action of one segment. *)
Lemma controller_one_segment (ctx : Ctx) (a seg : string) :
  parseAction E (event ctx) = VStr a ->
  filter Str.nonempty (Str.split Str.slash a) = [seg] ->
  controller E ctx
  = Normal (error ("action must contain " ++ dquote ++ "/" ++ dquote)).
Proof.
  intros Hp Hs. unfold controller. rewrite Hp.
  destruct a as [|c a]; [discriminate Hs|].
  cbn [truthy negb String.eqb]. rewrite Hs. reflexivity.
Qed.

(** An action of two segments or more: the namespace segments are walked
    from the root, then the method is looked up. *)
Lemma controller_paths (ctx : Ctx) (a : string) (ns : list string) (m : string) :
  parseAction E (event ctx) = VStr a ->
  filter Str.nonempty (Str.split Str.slash a) = (ns ++ [m])%list ->
  ns <> [] ->
  controller E ctx =
  (c <- walk E (controllers ctx) ns ;;
   if negb (truthy c) then
     path <- replace_tail E a m "" ;;
     Normal (error ("controller/" ++ path ++ " not found"))
   else
     match read E c m with
     | VFun f _ => Normal (Action (VStr m) c f)
     | _ => path <- replace_tail E a m ("." ++ m) ;;
            Normal (error ("controller/" ++ path ++ " is not a function"))
     end).
Proof.
  intros Hp Hs Hns. unfold controller. rewrite Hp.
  destruct a as [|ch a].
  { rewrite paths_of_empty in Hs. destruct ns; discriminate Hs. }
  cbn [truthy negb String.eqb]. rewrite Hs.
  assert (Hlen : Z.of_nat (length (ns ++ [m])%list) - 1 = Z.of_nat (length ns)).
  { rewrite length_app. simpl. lia. }
  assert (Hpos : (0 < length ns)%nat) by (destruct ns; [congruence | simpl; lia]).
  replace (Z.of_nat (length (ns ++ [m])%list) =? 1) with false
    by (symmetry; apply Z.eqb_neq; lia).
  cbv zeta. rewrite Hlen, Nat2Z.id.
  rewrite firstn_app, firstn_all, Nat.sub_diag. simpl firstn. rewrite app_nil_r.
  unfold element. replace (Z.of_nat (length ns) <? 0) with false
    by (symmetry; apply Z.ltb_ge; lia).
  rewrite Nat2Z.id, nth_error_app2, Nat.sub_diag by lia.
  reflexivity.
Qed.

End ResolverFacts.

(** ** Execution of a chain *)

Section ChainFacts.

Variable E : Host.

Lemma run_extends_log (a : act) (next : step) :
  extends_log next -> extends_log (run a next).
Proof.
  intros Hnext. induction a as [v|e|k IH|c k IH|k IH]; intros w; simpl.
  - exists []. rewrite app_nil_r. reflexivity.
  - exists []. rewrite app_nil_r. reflexivity.
  - apply IH.
  - destruct (IH (with_ctx c w)) as [more Hmore]. exists more. exact Hmore.
  - destruct (Hnext w) as [m1 H1]. destruct (next w) as [w' r]. simpl in H1.
    destruct (IH r w') as [m2 H2]. exists (m1 ++ m2)%list.
    rewrite H2, H1, app_assoc. reflexivity.
Qed.

Lemma call_fn_extends_log (f : jsfunc) (next : step) :
  extends_log next ->
  forall w, exists more,
    w_calls (fst (call_fn f next w)) = (w_calls w ++ CallFn f :: more)%list.
Proof.
  intros Hnext w. unfold call_fn.
  destruct (run_extends_log (fn_body f) next Hnext (record_call (CallFn f) w))
    as [more Hmore].
  exists more. rewrite Hmore. simpl. rewrite <- app_assoc. reflexivity.
Qed.

Lemma apply_extends_log (m : middleware) (next : step) :
  extends_log next -> extends_log (apply E m next).
Proof.
  intros Hnext w. destruct m as [f|tag matchFn fn|message|tag receiver method]; simpl.
  - destruct (call_fn_extends_log f next Hnext w) as [more H]. eauto.
  - destruct (matchFn (w_ctx w)); simpl.
    + destruct (call_fn_extends_log fn next Hnext w) as [more H]. eauto.
    + apply Hnext.
  - exists [CallError message]. reflexivity.
  - destruct (invoke E method receiver (w_ctx w)) as [c [v|e]];
      [destruct (is_defined v)|]; exists [CallMethod method receiver]; reflexivity.
Qed.

Lemma dispatch_extends_log (rest : list middleware) :
  forall i, extends_log (dispatch E rest i).
Proof.
  induction rest as [|m rest IH]; intros i w; simpl.
  - destruct (i <=? w_index w); exists []; rewrite app_nil_r; reflexivity.
  - destruct (i <=? w_index w).
    + exists []. rewrite app_nil_r. reflexivity.
    + apply (apply_extends_log m _ (IH (i + 1)) (with_index i w)).
Qed.

(** The error-only chain when the transport middleware accepts the event:
    [http] is entered, then the error handler throws, and the failure comes
    back through [http]. *)
Lemma compose_error_chain (ctx c1 : Ctx) (m : string) :
  httpDecode E ctx = Normal c1 ->
  compose E [Plain (http E); ErrorHandler m] ctx
  = ({| w_ctx := c1; w_index := 1;
        w_calls := [CallFn (http E); CallError m] |}, Abrupt (Error E m)).
Proof.
  intros H. unfold compose. simpl. unfold call_fn. simpl. rewrite H. reflexivity.
Qed.

(** The error-only chain when the transport middleware rejects the event. *)
Lemma compose_error_chain_rejected (ctx : Ctx) (m : string) (e : value) :
  httpDecode E ctx = Abrupt e ->
  compose E [Plain (http E); ErrorHandler m] ctx
  = ({| w_ctx := ctx; w_index := 0; w_calls := [CallFn (http E)] |}, Abrupt e).
Proof.
  intros H. unfold compose. simpl. unfold call_fn. simpl. rewrite H. reflexivity.
Qed.

(** Normalising a fresh error. *)
Lemma failed_fresh_error (r : Router) (m : string) :
  m <> "" -> failed E r (Error E m) = Normal (usage_failure E r m).
Proof.
  intros Hm. unfold failed, usage_failure, Error, error_object. simpl.
  unfold js_or. simpl.
  destruct (m =? "")%string eqn:Heq; [apply String.eqb_eq in Heq; contradiction|].
  simpl. destruct (is_true (debug (config r))); simpl; [|reflexivity].
  destruct (stackTrace E m =? "")%string eqn:Hst; simpl; [|reflexivity].
  apply String.eqb_eq in Hst. rewrite Hst. reflexivity.
Qed.

(** The failure object has no [then]: resolving with it fulfils the
    promise. *)
Lemma deliver_usage_failure (r : Router) (m : string) :
  deliver E (usage_failure E r m) = Resolved (usage_failure E r m).
Proof.
  unfold deliver, usage_failure. destruct (is_true (debug (config r))); reflexivity.
Qed.

(** A usage error reported by the resolver comes out of [serve] as its
    normalised failure. *)
Lemma serve_usage_error (r : Router) (ev cx : value) (c1 : Ctx) (m : string) :
  controller E (serve_context E r ev cx) = Normal (error m) ->
  httpDecode E (serve_context E r ev cx) = Normal c1 ->
  m <> "" ->
  serve E r ev cx = Resolved (usage_failure E r m).
Proof.
  intros Hc Hd Hm. unfold serve. rewrite Hc. unfold error, chain_for. simpl.
  rewrite (compose_error_chain _ _ m Hd), (failed_fresh_error r m Hm).
  apply deliver_usage_failure.
Qed.

(** A nullish failure value cannot be normalised. *)
Lemma failed_nullish (r : Router) (err : value) :
  nullish err = true -> exists e, failed E r err = Abrupt e.
Proof.
  destruct err; try discriminate; intros _; eexists; reflexivity.
Qed.

(** Any other failure value is normalised field by field. *)
Lemma failed_not_nullish (r : Router) (err : value) :
  nullish err = false ->
  failed E r err
  = Normal (VObj ([("code", js_or (read E err "code") (FAILED_CODE E));
                   ("message", js_or (read E err "message") err)]
                  ++ (if is_true (debug (config r))
                      then [("stack", js_or (read E err "stack") (VStr ""))]
                      else []))).
Proof.
  intros H. unfold failed.
  destruct err; try discriminate; simpl;
    destruct (is_true (debug (config r))); reflexivity.
Qed.

(** What [failed] returns has no [then]: resolving with it fulfils the
    promise. *)
Lemma deliver_failed (r : Router) (err ret : value) :
  failed E r err = Normal ret -> deliver E ret = Resolved ret.
Proof.
  destruct (nullish err) eqn:Hn.
  - destruct (failed_nullish r err Hn) as [e He]. rewrite He. discriminate.
  - rewrite (failed_not_nullish r err Hn). intros [= <-].
    unfold deliver. destruct (is_true (debug (config r))); reflexivity.
Qed.

End ChainFacts.

(** ** What [serve] settles to *)

Section ServeFacts.

Variable E : Host.

(** [serve] in terms of the chain it ran. *)
Lemma serve_of_chain (r : Router) (ev cx : value) (w : world) (o : completion value) :
  serve_chain E r ev cx = Some (w, o) ->
  serve E r ev cx =
  match o with
  | Normal _ => deliver E (respond (w_ctx w))
  | Abrupt err => match failed E r err with
                  | Normal ret => Resolved ret
                  | Abrupt _ => Pending
                  end
  end.
Proof.
  unfold serve_chain, serve.
  destruct (controller E (serve_context E r ev cx)) as [c|e]; [|discriminate].
  intros [= H]. rewrite H. destruct o as [v|err]; [reflexivity|].
  destruct (failed E r err) as [ret|e] eqn:Hf; [|reflexivity].
  exact (deliver_failed E r err ret Hf).
Qed.

(** When the resolver throws nothing is composed and the promise rejects. *)
Lemma serve_of_thrown_resolution (r : Router) (ev cx : value) (e : value) :
  controller E (serve_context E r ev cx) = Abrupt e ->
  serve_chain E r ev cx = None /\ serve E r ev cx = Rejected e.
Proof.
  intros H. unfold serve_chain, serve. rewrite H. split; reflexivity.
Qed.

(** The resolver on [ns/sub/m] when the node [ns] is there: the walk ends
    on whatever [ns.sub] is. *)
Lemma controller_three (ctx : Ctx) (ns sub m : string) (node target : value) :
  Str.segment ns = true -> Str.segment sub = true -> Str.segment m = true ->
  parseAction E (event ctx) = VStr (ns ++ "/" ++ sub ++ "/" ++ m) ->
  get_prop E (controllers ctx) ns = Normal node ->
  get_prop E node sub = Normal target ->
  controller E ctx =
  (if negb (truthy target) then
     path <- replace_tail E (ns ++ "/" ++ sub ++ "/" ++ m) m "" ;;
     Normal (error ("controller/" ++ path ++ " not found"))
   else
     match read E target m with
     | VFun f _ => Normal (Action (VStr m) target f)
     | _ => path <- replace_tail E (ns ++ "/" ++ sub ++ "/" ++ m) m ("." ++ m) ;;
            Normal (error ("controller/" ++ path ++ " is not a function"))
     end).
Proof.
  intros Hns Hsub Hm Hp Hnode Htarget.
  rewrite (controller_paths E ctx _ [ns; sub] m Hp);
    [|apply paths_of_three; assumption|discriminate].
  simpl walk. rewrite Hnode. simpl bind. rewrite Htarget. reflexivity.
Qed.

(** The working case of the "not found" report: [ns] is there and [ns.sub]
    is missing (or otherwise falsy). *)
Lemma not_found_when_last_namespace_is_missing
  (r : Router) (ev cx : value) (ns sub m : string) (node target : value) (c1 : Ctx) :
  Str.segment ns = true -> Str.segment sub = true -> Str.segment m = true ->
  Str.regexp_literal m = true ->
  parseAction E (event (serve_context E r ev cx)) = VStr (ns ++ "/" ++ sub ++ "/" ++ m) ->
  get_prop E (controllers (serve_context E r ev cx)) ns = Normal node ->
  get_prop E node sub = Normal target ->
  truthy target = false ->
  httpDecode E (serve_context E r ev cx) = Normal c1 ->
  serve E r ev cx
  = Resolved (usage_failure E r ("controller/" ++ ns ++ "/" ++ sub ++ " not found")).
Proof.
  intros Hns Hsub Hm Hlit Hp Hnode Htarget Hfalsy Hd.
  apply serve_usage_error with (c1 := c1); [|exact Hd|discriminate].
  rewrite (controller_three _ ns sub m node target Hns Hsub Hm Hp Hnode Htarget).
  rewrite Hfalsy. simpl negb. cbv iota.
  replace (ns ++ "/" ++ sub ++ "/" ++ m)%string
    with ((ns ++ "/" ++ sub) ++ "/" ++ m)%string by (rewrite append_assoc; reflexivity).
  rewrite (replace_tail_suffix E _ m "" Hlit eq_refl). simpl bind.
  rewrite append_nil_r, append_assoc. reflexivity.
Qed.


(** The working case of the error-only chain: when the resolver yields the
    error handler, only the transport middleware and that handler run, and
    if the transport middleware accepts the event the failure is the
    reported message. *)
Lemma error_chain_only (r : Router) (ev cx : value) (m : string) :
  controller E (serve_context E r ev cx) = Normal (error m) ->
  (exists w o, serve_chain E r ev cx = Some (w, o)
               /\ (w_calls w = [CallFn (http E)]
                   \/ w_calls w = [CallFn (http E); CallError m]))
  /\ (forall c1, httpDecode E (serve_context E r ev cx) = Normal c1 ->
                 m <> "" ->
                 serve E r ev cx = Resolved (usage_failure E r m)).
Proof.
  intros Hc. split.
  - unfold serve_chain. rewrite Hc. unfold error, chain_for. simpl.
    destruct (httpDecode E (serve_context E r ev cx)) as [c1|e] eqn:Hd.
    + rewrite (compose_error_chain E _ c1 m Hd). eexists _, _. split; [reflexivity|].
      right. reflexivity.
    + rewrite (compose_error_chain_rejected E _ m e Hd). eexists _, _.
      split; [reflexivity|]. left. reflexivity.
  - intros c1 Hd Hm. exact (serve_usage_error E r ev cx c1 m Hc Hd Hm).
Qed.

End ServeFacts.

(** ** Registration *)

Section RegistrationFacts.

Variable E : Host.

Lemma http_entry_shape :
  http_entry E = Wrapper (VStr "http") (createRouteMatch E http_options) (http E).
Proof. reflexivity. Qed.

(** [use] either throws or appends exactly one wrapped entry. *)
Lemma use_appends (r r' : Router) (fn : useArg) (options : value) :
  use E r fn options = Normal r' ->
  exists f, fn = ArgFn f
            /\ middleware_of r' = (middleware_of r ++ [wrapMiddleware E f options])%list
            /\ config r' = config r.
Proof.
  destruct fn as [f|v]; simpl; [|discriminate].
  intros [= <-]. exists f. repeat split.
Qed.

Lemma use_all_appends (entries : list (useArg * value)) :
  forall r r', use_all E r entries = Normal r' ->
  exists added, middleware_of r' = (middleware_of r ++ added)%list.
Proof.
  induction entries as [|[mw options] rest IH]; intros r r'; simpl.
  - intros [= <-]. exists []. rewrite app_nil_r. reflexivity.
  - destruct (use E r mw options) as [r1|e] eqn:Huse; simpl; [|discriminate].
    intros H. destruct (IH _ _ H) as [added Hadded].
    destruct (use_appends _ _ _ _ Huse) as (f & _ & Hr1 & _).
    exists (wrapMiddleware E f options :: added).
    rewrite Hadded, Hr1, <- app_assoc. reflexivity.
Qed.

(** A constructed router has the transport entry first. *)
Lemma new_Router_starts_with_http (cfg : option RouterOptions) (r : Router) :
  new_Router E cfg = Normal r -> starts_with_http E r.
Proof.
  unfold new_Router, initMiddleware.
  destruct (pathResolve E _ SERVICE_DIR) as [sdir|e]; simpl; [|discriminate].
  destruct (pathResolve E _ CONTROLLER_DIR) as [cdir|e]; simpl; [|discriminate].
  destruct (cfg_middleware _) as [entries|].
  - intros H. apply use_all_appends in H as [added H]. simpl in H.
    exists added. exact H.
  - intros [= <-]. exists []. reflexivity.
Qed.

(** [use] keeps the transport entry first. *)
Lemma use_keeps_http_first (r r' : Router) (fn : useArg) (options : value) :
  starts_with_http E r -> use E r fn options = Normal r' -> starts_with_http E r'.
Proof.
  intros [rest Hr] Huse. destruct (use_appends _ _ _ _ Huse) as (f & _ & Hr' & _).
  exists (rest ++ [wrapMiddleware E f options])%list. rewrite Hr', Hr. reflexivity.
Qed.

(** Whenever a chain is run from a router with the transport entry first,
    the transport middleware is the first function entered. *)
Lemma http_runs_first (r : Router) (ev cx : value) (w : world) (o : completion value) :
  starts_with_http E r ->
  (forall c, createRouteMatch E http_options c = true) ->
  serve_chain E r ev cx = Some (w, o) ->
  exists more, w_calls w = CallFn (http E) :: more.
Proof.
  intros [rest Hr] Hmatch. unfold serve_chain.
  destruct (controller E (serve_context E r ev cx)) as [c|e]; [|discriminate].
  intros [= H]. unfold chain_for in H.
  assert (Hw : w = fst (compose E (if is_string "error" (mw_name c)
                                   then [Plain (http E); c]
                                   else (middleware_of r ++ [c])%list)
                                (serve_context E r ev cx))) by (rewrite H; reflexivity).
  subst w. clear H. unfold compose.
  destruct (is_string "error" (mw_name c)).
  - cbn [dispatch Z.leb Z.compare w_index apply].
    destruct (call_fn_extends_log (http E) _ (dispatch_extends_log E [c] (0 + 1))
                (with_index 0 {| w_ctx := serve_context E r ev cx; w_index := -1; w_calls := [] |}))
      as [more Hmore].
    exists more. exact Hmore.
  - rewrite Hr, http_entry_shape.
    cbn [app dispatch Z.leb Z.compare w_index apply with_index w_ctx].
    rewrite Hmatch. cbn [negb].
    destruct (call_fn_extends_log (http E) _
                (dispatch_extends_log E (rest ++ [c])%list (0 + 1))
                (with_index 0 {| w_ctx := serve_context E r ev cx; w_index := -1; w_calls := [] |}))
      as [more Hmore].
    exists more. exact Hmore.
Qed.

End RegistrationFacts.

(** ** Chains that pass through *)

Section PassFacts.

Variable E : Host.





End PassFacts.

(** ** The invocation that throws during resolution *)

(** An action of three segments or more whose first namespace node is
    [undefined] or [null] makes the resolver throw. *)
Lemma resolution_throws_on_missing_first
  (E : Host) (ctx : Ctx) (a ns sub : string) (more : list string) (m : string) :
  parseAction E (event ctx) = VStr a ->
  filter Str.nonempty (Str.split Str.slash a) = ((ns :: sub :: more) ++ [m])%list ->
  nullish (controllers ctx) = false ->
  nullish (read E (controllers ctx) ns) = true ->
  controller E ctx
  = Abrupt (TypeError E ("Cannot read properties of "
                         ++ nullish_name (read E (controllers ctx) ns)
                         ++ " (reading '" ++ sub ++ "')")).
Proof.
  intros Hp Hpaths Hroot Hmissing.
  rewrite (controller_paths E ctx a (ns :: sub :: more) m Hp Hpaths); [|discriminate].
  cbn [walk]. rewrite (get_prop_present E _ ns Hroot). cbn [bind].
  rewrite (get_prop_nullish E _ sub Hmissing). reflexivity.
Qed.

(** When a namespace node before the last one is missing the resolver
    throws: no chain is composed and nothing is executed, neither the
    user middleware nor the transport middleware. *)
Lemma nothing_runs_when_resolution_throws :
  serve_chain demoHost countingRouter (Demo.request "nope/sub/run") VUndefined = None
  /\ executed demoHost countingRouter (Demo.request "nope/sub/run") VUndefined = []
  /\ serve demoHost countingRouter (Demo.request "nope/sub/run") VUndefined
     = Rejected (TypeError demoHost "Cannot read properties of undefined (reading 'sub')").
Proof. repeat split. Qed.


(** * The claims of the specification *)

Module Claims.

(** C1 (serve always resolves and never rejects, also when the first
    namespace segment of an action of three or more segments is missing):
    for such an action the resolver reads the second segment off the
    [undefined] (or [null]) the first lookup yielded, in the synchronous
    prefix of [serve]; the promise of [serve] is rejected with that
    [TypeError] and is not resolved to any value. *)
Theorem serve_rejects_when_first_namespace_is_missing
  (E : Host) (r : Router) (ev cx : value)
  (a ns sub : string) (more : list string) (m : string) :
  parseAction E (event (serve_context E r ev cx)) = VStr a ->
  filter Str.nonempty (Str.split Str.slash a) = ((ns :: sub :: more) ++ [m])%list ->
  nullish (controllers (serve_context E r ev cx)) = false ->
  nullish (read E (controllers (serve_context E r ev cx)) ns) = true ->
  serve E r ev cx
  = Rejected (TypeError E ("Cannot read properties of "
                           ++ nullish_name (read E (controllers (serve_context E r ev cx)) ns)
                           ++ " (reading '" ++ sub ++ "')"))
  /\ forall v, serve E r ev cx <> Resolved v.
Proof.
  intros Hp Hpaths Hroot Hmissing.
  assert (Hthrown : controller E (serve_context E r ev cx)
    = Abrupt (TypeError E ("Cannot read properties of "
                           ++ nullish_name (read E (controllers (serve_context E r ev cx)) ns)
                           ++ " (reading '" ++ sub ++ "')"))).
  { rewrite (controller_paths E _ a (ns :: sub :: more) m Hp Hpaths); [|discriminate].
    cbn [walk]. rewrite (get_prop_present E _ ns Hroot). cbn [bind].
    rewrite (get_prop_nullish E _ sub Hmissing). reflexivity. }
  destruct (serve_of_thrown_resolution E r ev cx _ Hthrown) as [_ Hserve].
  split; [exact Hserve|]. intros v. rewrite Hserve. discriminate.
Qed.

Lemma serve_rejects_witness :
  serve emptyHost emptyRouter (Demo.request "ns/sub/deep/doThing") VUndefined
  = Rejected (TypeError emptyHost "Cannot read properties of undefined (reading 'sub')")
  /\ forall v, serve emptyHost emptyRouter (Demo.request "ns/sub/deep/doThing") VUndefined
               <> Resolved v.
Proof.
  apply (serve_rejects_when_first_namespace_is_missing emptyHost emptyRouter
           (Demo.request "ns/sub/deep/doThing") VUndefined
           "ns/sub/deep/doThing" "ns" "sub" ["deep"] "doThing");
    reflexivity.
Defined.

(** C3 (a missing intermediate namespace node is reported as
    [controller/ns/sub not found]): when the first lookup of [ns/sub/m]
    already yields [undefined] or [null], the second lookup throws, so
    [serve] rejects with a [TypeError] and does not resolve to the
    "not found" failure. *)
Theorem not_found_is_missed_when_first_namespace_is_missing
  (E : Host) (r : Router) (ev cx : value) (ns sub m : string) :
  Str.segment ns = true -> Str.segment sub = true -> Str.segment m = true ->
  parseAction E (event (serve_context E r ev cx)) = VStr (ns ++ "/" ++ sub ++ "/" ++ m) ->
  nullish (controllers (serve_context E r ev cx)) = false ->
  nullish (read E (controllers (serve_context E r ev cx)) ns) = true ->
  serve E r ev cx
  = Rejected (TypeError E ("Cannot read properties of "
                           ++ nullish_name (read E (controllers (serve_context E r ev cx)) ns)
                           ++ " (reading '" ++ sub ++ "')"))
  /\ serve E r ev cx
     <> Resolved (usage_failure E r ("controller/" ++ ns ++ "/" ++ sub ++ " not found")).
Proof.
  intros Hns Hsub Hm Hp Hroot Hmissing.
  assert (Hserve : serve E r ev cx
    = Rejected (TypeError E ("Cannot read properties of "
                             ++ nullish_name (read E (controllers (serve_context E r ev cx)) ns)
                             ++ " (reading '" ++ sub ++ "')"))).
  { apply serve_of_thrown_resolution.
    rewrite (controller_paths E _ _ [ns; sub] m Hp);
      [|apply paths_of_three; assumption|discriminate].
    simpl walk.
    rewrite (get_prop_present E _ ns Hroot). simpl bind.
    rewrite (get_prop_nullish E _ sub Hmissing). reflexivity. }
  split; [exact Hserve|]. rewrite Hserve. discriminate.
Qed.

Lemma not_found_is_missed_witness :
  serve emptyHost emptyRouter (Demo.request "ns/sub/run") VUndefined
  = Rejected (TypeError emptyHost "Cannot read properties of undefined (reading 'sub')")
  /\ serve emptyHost emptyRouter (Demo.request "ns/sub/run") VUndefined
     <> Resolved (usage_failure emptyHost emptyRouter "controller/ns/sub not found").
Proof.
  apply (not_found_is_missed_when_first_namespace_is_missing
           emptyHost emptyRouter (Demo.request "ns/sub/run") VUndefined "ns" "sub" "run");
    reflexivity.
Defined.

(** C2, as stated: invoked with [ns/sub/doThing] where [ns.sub] exists and
    [doThing] is not callable, [serve] would resolve to a failure with the
    message [controller/ns.sub.doThing is not a function].  It resolves to a
    failure whose message keeps the [/] between [ns] and [sub]. *)
Lemma dotted_namespace_is_not_reported :
  is_function (read demoHost (read demoHost (read demoHost Demo.tree "ns") "sub") "doThing")
  = false
  /\ serve demoHost demoRouter (Demo.request "ns/sub/doThing") VUndefined
     = Resolved (VObj [("code", FAILED_CODE demoHost);
                       ("message", VStr "controller/ns/sub.doThing is not a function")])
  /\ ~ (exists props,
          serve demoHost demoRouter (Demo.request "ns/sub/doThing") VUndefined
          = Resolved (VObj props)
          /\ lookup "message" props
             = VStr "controller/ns.sub.doThing is not a function").
Proof.
  split; [reflexivity|]. split; [reflexivity|].
  intros (props & Hserve & Hmsg).
  change (serve demoHost demoRouter (Demo.request "ns/sub/doThing") VUndefined)
    with (Resolved (VObj [("code", FAILED_CODE demoHost);
                          ("message", VStr "controller/ns/sub.doThing is not a function")]))
    in Hserve.
  injection Hserve as <-. discriminate Hmsg.
Qed.

(** C2, amended: for an action [ns/sub/m] whose method name is made of
    literal characters, where the node [ns.sub] exists (is truthy) and its
    property [m] is not a function, and the transport middleware accepts
    the event, [serve] resolves to the failure whose message is
    [controller/ns/sub.m is not a function]: only the [/] in front of the
    method name becomes a dot. *)
Theorem not_a_function_message
  (E : Host) (r : Router) (ev cx : value) (ns sub m : string)
  (node target : value) (c1 : Ctx) :
  Str.segment ns = true -> Str.segment sub = true -> Str.segment m = true ->
  Str.regexp_literal m = true ->
  parseAction E (event (serve_context E r ev cx)) = VStr (ns ++ "/" ++ sub ++ "/" ++ m) ->
  get_prop E (controllers (serve_context E r ev cx)) ns = Normal node ->
  get_prop E node sub = Normal target ->
  truthy target = true ->
  is_function (read E target m) = false ->
  httpDecode E (serve_context E r ev cx) = Normal c1 ->
  serve E r ev cx
  = Resolved (usage_failure E r
                ("controller/" ++ ns ++ "/" ++ sub ++ "." ++ m ++ " is not a function")).
Proof.
  intros Hns Hsub Hm Hlit Hp Hnode Htarget Htruthy Hfun Hd.
  apply serve_usage_error with (c1 := c1); [|exact Hd|discriminate].
  rewrite (controller_three E _ ns sub m node target Hns Hsub Hm Hp Hnode Htarget).
  rewrite Htruthy. simpl negb. cbv iota.
  assert (Hpath : replace_tail E (ns ++ "/" ++ sub ++ "/" ++ m) m ("." ++ m)
                  = Normal ((ns ++ "/" ++ sub) ++ "." ++ m)%string).
  { replace (ns ++ "/" ++ sub ++ "/" ++ m)%string
      with ((ns ++ "/" ++ sub) ++ "/" ++ m)%string by (rewrite append_assoc; reflexivity).
    apply replace_tail_suffix; [exact Hlit|].
    simpl. apply (literal_is_plain m Hlit). }
  destruct (read E target m); try discriminate Hfun;
    rewrite Hpath; simpl bind; rewrite !append_assoc; reflexivity.
Qed.

Lemma not_a_function_message_witness :
  serve demoHost demoRouter (Demo.request "ns/sub/doThing") VUndefined
  = Resolved (usage_failure demoHost demoRouter
                "controller/ns/sub.doThing is not a function").
Proof.
  apply (not_a_function_message demoHost demoRouter (Demo.request "ns/sub/doThing")
           VUndefined "ns" "sub" "doThing"
           (read demoHost Demo.tree "ns")
           (read demoHost (read demoHost Demo.tree "ns") "sub")
           (serve_context demoHost demoRouter (Demo.request "ns/sub/doThing") VUndefined));
    reflexivity.
Defined.

(** C5, as stated: the failure object would carry the [code] and the
    [message] attribute of the failure whenever they are present.  A
    handler throwing [{ code: 42, message: "" }] gets the failure value
    itself as message, and one throwing [{ code: 0, message: "boom" }] gets
    the default code. *)
Lemma present_but_falsy_attributes_are_replaced :
  (exists w, serve_chain demoHost demoRouter (Demo.request "ns/sub/blank") VUndefined
             = Some (w, Abrupt blankMessage))
  /\ serve demoHost demoRouter (Demo.request "ns/sub/blank") VUndefined
     = Resolved (VObj [("code", VNum 42); ("message", blankMessage)])
  /\ serve demoHost demoRouter (Demo.request "ns/sub/blank") VUndefined
     <> Resolved (failure_as_specified demoHost demoRouter blankMessage)
  /\ (exists w, serve_chain demoHost demoRouter (Demo.request "ns/sub/zero") VUndefined
                = Some (w, Abrupt zeroCode))
  /\ serve demoHost demoRouter (Demo.request "ns/sub/zero") VUndefined
     = Resolved (VObj [("code", FAILED_CODE demoHost); ("message", VStr "boom")])
  /\ serve demoHost demoRouter (Demo.request "ns/sub/zero") VUndefined
     <> Resolved (failure_as_specified demoHost demoRouter zeroCode).
Proof.
  split; [eexists; reflexivity|]. split; [reflexivity|]. split; [discriminate|].
  split; [eexists; reflexivity|]. split; [reflexivity|]. discriminate.
Qed.

(** C5, amended: when the chain fails with a value [err] that is neither
    [undefined] nor [null], [serve] resolves to an object whose [code] is
    [err.code] when that is truthy and the default failure code otherwise,
    whose [message] is [err.message] when that is truthy and [err] itself
    otherwise, and which has a [stack] key ([err.stack] when truthy, else
    the empty string) exactly when the [debug] option is [true]. *)
Theorem failure_is_normalised
  (E : Host) (r : Router) (ev cx : value) (w : world) (err : value) :
  serve_chain E r ev cx = Some (w, Abrupt err) ->
  nullish err = false ->
  serve E r ev cx
  = Resolved
      (VObj ([("code", if truthy (read E err "code")
                       then read E err "code" else FAILED_CODE E);
              ("message", if truthy (read E err "message")
                          then read E err "message" else err)]
             ++ (if is_true (debug (config r))
                 then [("stack", if truthy (read E err "stack")
                                 then read E err "stack" else VStr "")]
                 else []))).
Proof.
  intros Hchain Herr.
  rewrite (serve_of_chain E r ev cx w (Abrupt err) Hchain).
  rewrite (failed_not_nullish E r err Herr). reflexivity.
Qed.

Lemma failure_is_normalised_witness :
  serve demoHost debugRouter (Demo.request "ns/sub/fail") VUndefined
  = Resolved (VObj [("code", VNum 42); ("message", VStr "boom"); ("stack", VStr "")])
  /\ serve demoHost demoRouter (Demo.request "ns/sub/fail") VUndefined
     = Resolved (VObj [("code", VNum 42); ("message", VStr "boom")]).
Proof.
  split.
  - apply (failure_is_normalised demoHost debugRouter (Demo.request "ns/sub/fail") VUndefined
             (fst (compose demoHost
                     (chain_for demoHost debugRouter
                        (Action (VStr "fail")
                           (read demoHost (read demoHost Demo.tree "ns") "sub") 1%nat))
                     (serve_context demoHost debugRouter
                        (Demo.request "ns/sub/fail") VUndefined)))
             (VObj [("code", VNum 42); ("message", VStr "boom")]));
      reflexivity.
  - apply (failure_is_normalised demoHost demoRouter (Demo.request "ns/sub/fail") VUndefined
             (fst (compose demoHost
                     (chain_for demoHost demoRouter
                        (Action (VStr "fail")
                           (read demoHost (read demoHost Demo.tree "ns") "sub") 1%nat))
                     (serve_context demoHost demoRouter
                        (Demo.request "ns/sub/fail") VUndefined)))
             (VObj [("code", VNum 42); ("message", VStr "boom")]));
      reflexivity.
Defined.

(** C9: when the chain fails with [null] or [undefined], [failed] throws
    while reading [code] off that value, inside the catch callback, so the
    promise of [serve] is never resolved: no normalised failure object (and
    no other value) comes out. *)
Theorem nullish_failure_is_not_normalised
  (E : Host) (r : Router) (ev cx : value) (w : world) (err : value) :
  serve_chain E r ev cx = Some (w, Abrupt err) ->
  nullish err = true ->
  failed E r err
  = Abrupt (TypeError E ("Cannot read properties of " ++ nullish_name err
                         ++ " (reading 'code')"))
  /\ serve E r ev cx = Pending
  /\ forall ret, serve E r ev cx <> Resolved ret.
Proof.
  intros Hchain Herr.
  assert (Hfailed : failed E r err
    = Abrupt (TypeError E ("Cannot read properties of " ++ nullish_name err
                           ++ " (reading 'code')")))
    by (destruct err; try discriminate Herr; reflexivity).
  assert (Hserve : serve E r ev cx = Pending)
    by (rewrite (serve_of_chain E r ev cx w (Abrupt err) Hchain), Hfailed; reflexivity).
  repeat split; [exact Hfailed|exact Hserve|].
  intros ret. rewrite Hserve. discriminate.
Qed.

Lemma nullish_failure_witness :
  failed demoHost demoRouter VNull
  = Abrupt (TypeError demoHost "Cannot read properties of null (reading 'code')")
  /\ serve demoHost demoRouter (Demo.request "ns/sub/failNull") VUndefined = Pending
  /\ forall ret, serve demoHost demoRouter (Demo.request "ns/sub/failNull") VUndefined
                 <> Resolved ret.
Proof.
  apply (nullish_failure_is_not_normalised demoHost demoRouter
           (Demo.request "ns/sub/failNull") VUndefined
           (fst (compose demoHost
                   (chain_for demoHost demoRouter
                      (Action (VStr "failNull")
                         (read demoHost (read demoHost Demo.tree "ns") "sub") 2%nat))
                   (serve_context demoHost demoRouter
                      (Demo.request "ns/sub/failNull") VUndefined)))
           VNull);
    reflexivity.
Defined.




(** C7: the wrapper of a registered middleware [fn] evaluates the match
    predicate of its options on the current context.  When it is false the
    wrapper is the next entry of the chain, [fn] not being entered; when it
    is true [fn] is entered with the context and, as its [next], the
    dispatch of the following entry. *)
Theorem wrapper_gates_on_match
  (E : Host) (fn : jsfunc) (options : value) (rest : list middleware) (i : Z) (w : world) :
  w_index w < i ->
  (createRouteMatch E options (w_ctx w) = false ->
   dispatch E (wrapMiddleware E fn options :: rest) i w
   = dispatch E rest (i + 1) (with_index i w))
  /\ (createRouteMatch E options (w_ctx w) = true ->
      dispatch E (wrapMiddleware E fn options :: rest) i w
      = run (fn_body fn) (dispatch E rest (i + 1))
            (record_call (CallFn fn) (with_index i w)))
  /\ (forall next,
        apply E (wrapMiddleware E fn options) next w
        = if createRouteMatch E options (w_ctx w) then call_fn fn next w else next w).
Proof.
  intros Hi.
  assert (Hguard : (i <=? w_index w) = false) by (apply Z.leb_gt; exact Hi).
  split; [|split].
  - intros Hmatch. cbn [dispatch]. rewrite Hguard.
    unfold wrapMiddleware. cbn [apply with_index w_ctx]. rewrite Hmatch. reflexivity.
  - intros Hmatch. cbn [dispatch]. rewrite Hguard.
    unfold wrapMiddleware. cbn [apply with_index w_ctx]. rewrite Hmatch. reflexivity.
  - intros next. unfold wrapMiddleware. cbn [apply].
    destruct (createRouteMatch E options (w_ctx w)); reflexivity.
Qed.

Lemma wrapper_gates_on_match_witness :
  dispatch demoHost
    [wrapMiddleware demoHost Demo.counter (VObj [("enable", VBool false)])] 0
    (start (mkCtx VNull VNull VNull VUndefined (VNum 0)))
  = ({| w_ctx := mkCtx VNull VNull VNull VUndefined (VNum 0);
        w_index := 1; w_calls := [] |}, Normal VUndefined)
  /\ dispatch demoHost [wrapMiddleware demoHost Demo.counter VUndefined] 0
       (start (mkCtx VNull VNull VNull VUndefined (VNum 0)))
     = ({| w_ctx := mkCtx VNull VNull VNull VUndefined (VNum 1);
           w_index := 1; w_calls := [CallFn Demo.counter] |}, Normal VUndefined).
Proof.
  split.
  - rewrite (proj1 (wrapper_gates_on_match demoHost Demo.counter
                      (VObj [("enable", VBool false)]) [] 0
                      (start (mkCtx VNull VNull VNull VUndefined (VNum 0))) eq_refl)
                   eq_refl).
    reflexivity.
  - rewrite (proj1 (proj2 (wrapper_gates_on_match demoHost Demo.counter VUndefined [] 0
                             (start (mkCtx VNull VNull VNull VUndefined (VNum 0))) eq_refl))
                   eq_refl).
    reflexivity.
Defined.




(** The error-only chain: whenever the resolver yields the
    synthetic error handler (for an absent action, an action of one
    segment, a missing namespace node or a method that is not callable),
    the chain [serve] composes is the transport middleware followed by that
    handler, what runs is the transport middleware and then the handler and
    nothing else, and [serve] resolves to the failure object of the
    reported message: "action is required" for an absent action, the
    missing [/] for an action of one segment. *)
Theorem error_chain_bypasses_user_middleware
  (E : Host) (r : Router) (ev cx : value) (m : string) :
  controller E (serve_context E r ev cx) = Normal (error m) ->
  chain_for E r (error m) = [Plain (http E); error m]
  /\ (exists w o, serve_chain E r ev cx = Some (w, o)
                  /\ (w_calls w = [CallFn (http E)]
                      \/ w_calls w = [CallFn (http E); CallError m]))
  /\ (forall c1, httpDecode E (serve_context E r ev cx) = Normal c1 -> m <> "" ->
                 executed E r ev cx = [CallFn (http E); CallError m]
                 /\ serve E r ev cx = Resolved (usage_failure E r m))
  /\ (truthy (parseAction E (event (serve_context E r ev cx))) = false ->
      m = "action is required")
  /\ (forall a seg,
        parseAction E (event (serve_context E r ev cx)) = VStr a ->
        filter Str.nonempty (Str.split Str.slash a) = [seg] ->
        m = ("action must contain " ++ dquote ++ "/" ++ dquote)%string).
Proof.
  intros Hc. destruct (error_chain_only E r ev cx m Hc) as [Hran Hserve].
  split; [reflexivity|]. split; [exact Hran|]. split; [|split].
  - intros c1 Hd Hm. split; [|exact (Hserve c1 Hd Hm)].
    unfold executed, serve_chain. rewrite Hc. unfold error, chain_for. simpl.
    rewrite (compose_error_chain E _ c1 m Hd). reflexivity.
  - intros Habsent. rewrite (controller_without_action E _ Habsent) in Hc.
    injection Hc as <-. reflexivity.
  - intros a seg Hp Hseg. rewrite (controller_one_segment E _ a seg Hp Hseg) in Hc.
    injection Hc as <-. reflexivity.
Qed.

Lemma error_chain_witness :
  executed demoHost countingRouter VUndefined VUndefined
  = [CallFn (http demoHost); CallError "action is required"]
  /\ serve demoHost countingRouter VUndefined VUndefined
     = Resolved (VObj [("code", FAILED_CODE demoHost);
                       ("message", VStr "action is required")])
  /\ executed demoHost countingRouter (Demo.request "ns") VUndefined
     = [CallFn (http demoHost);
        CallError ("action must contain " ++ dquote ++ "/" ++ dquote)]
  /\ serve demoHost countingRouter (Demo.request "ns") VUndefined
     = Resolved (VObj [("code", FAILED_CODE demoHost);
                       ("message",
                        VStr ("action must contain " ++ dquote ++ "/" ++ dquote))]).
Proof.
  destruct (error_chain_bypasses_user_middleware demoHost countingRouter
              VUndefined VUndefined "action is required" eq_refl)
    as (_ & _ & Habsent & _).
  destruct (error_chain_bypasses_user_middleware demoHost countingRouter
              (Demo.request "ns") VUndefined
              ("action must contain " ++ dquote ++ "/" ++ dquote) eq_refl)
    as (_ & _ & Hone & _).
  destruct (Habsent (serve_context demoHost countingRouter VUndefined VUndefined) eq_refl
              ltac:(discriminate)) as [Hrun1 Hserve1].
  destruct (Hone (serve_context demoHost countingRouter (Demo.request "ns") VUndefined)
              eq_refl ltac:(discriminate)) as [Hrun2 Hserve2].
  split; [exact Hrun1|]. split; [exact Hserve1|]. split; [exact Hrun2|exact Hserve2].
Defined.

(** Registration order: the constructor registers the transport middleware
    before any configured middleware, so that it is the first entry;
    [use] only appends, which keeps it first; and in every invocation that
    runs a chain, the transport middleware (always matched) is the first
    function entered. *)
Theorem http_is_first (E : Host) :
  (forall cfg r, new_Router E cfg = Normal r -> starts_with_http E r)
  /\ (forall r fn options r',
        use E r fn options = Normal r' ->
        (exists f, fn = ArgFn f
                   /\ middleware_of r'
                      = (middleware_of r ++ [wrapMiddleware E f options])%list)
        /\ (starts_with_http E r -> starts_with_http E r'))
  /\ (forall r ev cx w o,
        starts_with_http E r ->
        (forall c, createRouteMatch E http_options c = true) ->
        serve_chain E r ev cx = Some (w, o) ->
        exists more, w_calls w = CallFn (http E) :: more).
Proof.
  split; [exact (new_Router_starts_with_http E)|]. split.
  - intros r fn options r' Huse. split.
    + destruct (use_appends E r r' fn options Huse) as (f & Hfn & Hmw & _).
      exists f. split; assumption.
    + intros Hr. exact (use_keeps_http_first E r r' fn options Hr Huse).
  - exact (http_runs_first E).
Qed.

Lemma http_is_first_witness :
  starts_with_http demoHost countingRouter
  /\ (exists more,
        executed demoHost countingRouter (Demo.request "ns/sub/run") VUndefined
        = CallFn (http demoHost) :: more)
  /\ (exists r',
        use demoHost demoRouter (ArgFn Demo.counter) VUndefined = Normal r'
        /\ middleware_of r'
           = [http_entry demoHost; wrapMiddleware demoHost Demo.counter VUndefined]
        /\ starts_with_http demoHost r').
Proof.
  destruct (http_is_first demoHost) as (Hnew & Huse & Hrun).
  assert (Hfirst : starts_with_http demoHost countingRouter).
  { apply (Hnew (Some (Demo.options VUndefined [(ArgFn Demo.counter, VUndefined)]))).
    reflexivity. }
  split; [exact Hfirst|]. split.
  - apply (Hrun countingRouter (Demo.request "ns/sub/run") VUndefined
             (fst (compose demoHost
                     (chain_for demoHost countingRouter
                        (Action (VStr "run")
                           (read demoHost (read demoHost Demo.tree "ns") "sub") 0%nat))
                     (serve_context demoHost countingRouter
                        (Demo.request "ns/sub/run") VUndefined)))
             (Normal VUndefined) Hfirst).
    + intros c. reflexivity.
    + reflexivity.
  - exists (mkRouter (config demoRouter)
              (middleware_of demoRouter
               ++ [wrapMiddleware demoHost Demo.counter VUndefined])%list
              (serviceDir demoRouter) (controllerDir demoRouter)).
    split; [reflexivity|].
    destruct (Huse demoRouter (ArgFn Demo.counter) VUndefined _ eq_refl)
      as [(f & Hf & Hmw) Hkeep].
    injection Hf as <-. split; [exact Hmw|].
    apply Hkeep. apply (Hnew (Some (Demo.options VUndefined []))). reflexivity.
Defined.

(** C4 (whenever resolution fails, a missing namespace node among the
    causes, the chain run is the transport middleware followed by the
    error handler and [serve] resolves to the failure object): when the
    missing node is the first of an action of three segments or more, the
    resolver throws instead of yielding the error handler; no chain is
    composed, nothing is executed, and [serve] resolves to nothing. *)
Theorem error_chain_is_missed_when_resolution_throws
  (E : Host) (r : Router) (ev cx : value)
  (a ns sub : string) (more : list string) (m : string) :
  parseAction E (event (serve_context E r ev cx)) = VStr a ->
  filter Str.nonempty (Str.split Str.slash a) = ((ns :: sub :: more) ++ [m])%list ->
  nullish (controllers (serve_context E r ev cx)) = false ->
  nullish (read E (controllers (serve_context E r ev cx)) ns) = true ->
  serve_chain E r ev cx = None
  /\ executed E r ev cx = []
  /\ forall v, serve E r ev cx <> Resolved v.
Proof.
  intros Hp Hpaths Hroot Hmissing.
  pose proof (resolution_throws_on_missing_first E _ a ns sub more m
                Hp Hpaths Hroot Hmissing) as Hthrown.
  destruct (serve_of_thrown_resolution E r ev cx _ Hthrown) as [Hchain Hserve].
  split; [exact Hchain|]. split.
  - unfold executed. rewrite Hchain. reflexivity.
  - intros v. rewrite Hserve. discriminate.
Qed.

Lemma error_chain_is_missed_witness :
  serve_chain demoHost countingRouter (Demo.request "nope/sub/run") VUndefined = None
  /\ executed demoHost countingRouter (Demo.request "nope/sub/run") VUndefined = []
  /\ forall v, serve demoHost countingRouter (Demo.request "nope/sub/run") VUndefined
               <> Resolved v.
Proof.
  apply (error_chain_is_missed_when_resolution_throws demoHost countingRouter
           (Demo.request "nope/sub/run") VUndefined "nope/sub/run" "nope" "sub" [] "run");
    reflexivity.
Defined.

(** C8 (the transport middleware is the first entry and executes first on
    every invocation): the router the constructor builds has it first,
    yet on the invocation of an action of three segments or more whose
    first namespace node is missing the resolver throws before anything is
    composed, and the transport middleware is not executed at all. *)
Theorem http_is_not_entered_when_resolution_throws
  (E : Host) (cfg : option RouterOptions) (r : Router) (ev cx : value)
  (a ns sub : string) (more : list string) (m : string) :
  new_Router E cfg = Normal r ->
  parseAction E (event (serve_context E r ev cx)) = VStr a ->
  filter Str.nonempty (Str.split Str.slash a) = ((ns :: sub :: more) ++ [m])%list ->
  nullish (controllers (serve_context E r ev cx)) = false ->
  nullish (read E (controllers (serve_context E r ev cx)) ns) = true ->
  starts_with_http E r
  /\ executed E r ev cx = []
  /\ ~ In (CallFn (http E)) (executed E r ev cx).
Proof.
  intros Hnew Hp Hpaths Hroot Hmissing.
  split; [exact (new_Router_starts_with_http E cfg r Hnew)|].
  pose proof (resolution_throws_on_missing_first E _ a ns sub more m
                Hp Hpaths Hroot Hmissing) as Hthrown.
  destruct (serve_of_thrown_resolution E r ev cx _ Hthrown) as [Hchain _].
  assert (Hnone : executed E r ev cx = [])
    by (unfold executed; rewrite Hchain; reflexivity).
  split; [exact Hnone|]. rewrite Hnone. intros [].
Qed.

Lemma http_is_not_entered_witness :
  starts_with_http emptyHost emptyRouter
  /\ executed emptyHost emptyRouter (Demo.request "ns/sub/doThing") VUndefined = []
  /\ ~ In (CallFn (http emptyHost))
          (executed emptyHost emptyRouter (Demo.request "ns/sub/doThing") VUndefined).
Proof.
  apply (http_is_not_entered_when_resolution_throws emptyHost
           (Some (Demo.options VUndefined [])) emptyRouter
           (Demo.request "ns/sub/doThing") VUndefined
           "ns/sub/doThing" "ns" "sub" [] "doThing");
    reflexivity.
Defined.

End Claims.

(** * Further properties of the code *)

(** ** Splitting and joining actions *)

Module PathFacts.
Import Str.

Lemma split_not_nil (sep : ascii) (s : string) : split sep s <> [].
Proof.
  destruct s as [|c s]; simpl; [discriminate|].
  destruct (Ascii.eqb c sep); [discriminate|].
  destruct (split sep s); discriminate.
Qed.

Lemma split_app (sep : ascii) (s t : string) :
  split sep (s ++ String sep t) = (split sep s ++ split sep t)%list.
Proof.
  induction s as [|c s IH]; simpl.
  - rewrite Ascii.eqb_refl. reflexivity.
  - rewrite IH. destruct (Ascii.eqb c sep); [reflexivity|].
    destruct (split sep s) as [|h tl] eqn:Hs; [|reflexivity].
    exfalso. exact (split_not_nil sep s Hs).
Qed.

Lemma paths_of_segment (s : string) : segment s = true -> paths_of s = [s].
Proof.
  unfold segment, paths_of. intros H. apply andb_true_iff in H as [Hne Hns].
  rewrite (StrFacts.split_no_slash s Hns). simpl. rewrite Hne. reflexivity.
Qed.

Lemma join_cons (s r : string) (rest : list string) :
  join (s :: r :: rest) = (s ++ "/" ++ join (r :: rest))%string.
Proof. reflexivity. Qed.

Lemma join_snoc (ns : list string) (m : string) :
  ns <> [] -> join (ns ++ [m]) = (join ns ++ "/" ++ m)%string.
Proof.
  induction ns as [|s ns IH]; [congruence|]. intros _.
  destruct ns as [|r ns]; [reflexivity|].
  change ((s :: r :: ns) ++ [m])%list with (s :: r :: (ns ++ [m]))%list.
  rewrite !join_cons.
  change (r :: (ns ++ [m]))%list with ((r :: ns) ++ [m])%list.
  rewrite IH by discriminate.
  rewrite !append_assoc. reflexivity.
Qed.




End PathFacts.

(** ** Chains: what is entered and what is not *)

Section ChainProvenance.

Variable E : Host.

(** A body that settles alone leaves the log and the index as they are and
    does not depend on its [next]. *)
Lemma run_alone (a : act) :
  settles_alone a ->
  forall next w,
    w_calls (fst (run a next w)) = w_calls w
    /\ forall next', run a next' w = run a next w.
Proof.
  induction 1 as [v|e|k Hk IH|c k Hk IH]; intros next w; simpl.
  - split; reflexivity.
  - split; reflexivity.
  - destruct (IH (w_ctx w) next w) as [Hlog Hnext]. split; assumption.
  - destruct (IH next (with_ctx c w)) as [Hlog Hnext]. split; assumption.
Qed.

Lemma run_keeps (P : call -> Prop) (a : act) (next : step) :
  (forall w, Forall P (w_calls w) -> Forall P (w_calls (fst (next w)))) ->
  forall w, Forall P (w_calls w) -> Forall P (w_calls (fst (run a next w))).
Proof.
  intros Hnext. induction a as [v|e|k IH|c k IH|k IH]; intros w Hw; simpl.
  - exact Hw.
  - exact Hw.
  - apply IH. exact Hw.
  - apply IH. exact Hw.
  - pose proof (Hnext w Hw) as H1. destruct (next w) as [w' r]. simpl in H1.
    apply IH. exact H1.
Qed.

Lemma apply_keeps (chain : list middleware) (m : middleware) (next : step) :
  In m chain ->
  (forall w, Forall (entered_from chain) (w_calls w) ->
             Forall (entered_from chain) (w_calls (fst (next w)))) ->
  forall w, Forall (entered_from chain) (w_calls w) ->
            Forall (entered_from chain) (w_calls (fst (apply E m next w))).
Proof.
  intros Hin Hnext w Hw.
  destruct m as [f|tag matchFn fn|message|tag receiver method]; simpl.
  - unfold call_fn. apply run_keeps; [exact Hnext|]. simpl.
    apply Forall_app. split; [exact Hw|]. constructor; [|constructor].
    left. exact Hin.
  - destruct (matchFn (w_ctx w)) eqn:Hmatch; simpl; [|apply Hnext; exact Hw].
    unfold call_fn. apply run_keeps; [exact Hnext|]. simpl.
    apply Forall_app. split; [exact Hw|]. constructor; [|constructor].
    right. exists tag, matchFn. split; [exact Hin|]. exists (w_ctx w). exact Hmatch.
  - apply Forall_app. split; [exact Hw|]. constructor; [|constructor]. exact Hin.
  - assert (Hlog : Forall (entered_from chain) (w_calls w ++ [CallMethod method receiver])).
    { apply Forall_app. split; [exact Hw|]. constructor; [|constructor].
      exists tag. exact Hin. }
    destruct (invoke E method receiver (w_ctx w)) as [c [v|e]];
      [destruct (is_defined v)|]; exact Hlog.
Qed.

Lemma dispatch_keeps (chain rest : list middleware) :
  (forall m, In m rest -> In m chain) ->
  forall i w, Forall (entered_from chain) (w_calls w) ->
              Forall (entered_from chain) (w_calls (fst (dispatch E rest i w))).
Proof.
  induction rest as [|m rest IH]; intros Hsub i w Hw; simpl.
  - destruct (i <=? w_index w); exact Hw.
  - destruct (i <=? w_index w); [exact Hw|].
    apply apply_keeps.
    + apply Hsub. left. reflexivity.
    + intros w' Hw'. apply IH; [|exact Hw'].
      intros m' Hm'. apply Hsub. right. exact Hm'.
    + exact Hw.
Qed.

(** What the resolver returns is the error handler or a resolved method. *)
Lemma controller_shape (ctx : Ctx) (c : middleware) :
  controller E ctx = Normal c ->
  (exists m, c = ErrorHandler m) \/ (exists tag receiver f, c = Action tag receiver f).
Proof.
  unfold controller.
  destruct (negb (truthy (parseAction E (event ctx)))).
  { intros [= <-]. left. eexists. reflexivity. }
  destruct (parseAction E (event ctx)); try discriminate.
  destruct (_ =? 1).
  { intros [= <-]. left. eexists. reflexivity. }
  destruct (walk E _ _) as [node|e]; [|discriminate]. cbn [bind].
  destruct (negb (truthy node)).
  { destruct (replace_tail E _ _ _); [|discriminate]. cbn [bind].
    intros [= <-]. left. eexists. reflexivity. }
  destruct (read E node _);
    try (destruct (replace_tail E _ _ _); [|discriminate]; cbn [bind];
         intros [= <-]; left; eexists; reflexivity).
  intros [= <-]. right. eexists _, _, _. reflexivity.
Qed.

(** Every record of the log of an invocation comes from the chain that was
    composed. *)
Lemma log_from_chain (r : Router) (ev cx : value) (c : middleware)
  (w : world) (o : completion value) :
  controller E (serve_context E r ev cx) = Normal c ->
  serve_chain E r ev cx = Some (w, o) ->
  Forall (entered_from (chain_for E r c)) (w_calls w).
Proof.
  intros Hc. unfold serve_chain. rewrite Hc. intros [= H].
  assert (Hw : w = fst (compose E (chain_for E r c) (serve_context E r ev cx)))
    by (rewrite H; reflexivity).
  subst w. unfold compose. apply dispatch_keeps.
  - intros m Hm. exact Hm.
  - constructor.
Qed.

End ChainProvenance.

(** ** Construction *)

Section ConstructionFacts.

Variable E : Host.

Lemma use_all_functions (fs : list (jsfunc * value)) :
  forall r,
    use_all E r (as_entries fs)
    = Normal {| config := config r;
                middleware_of := (middleware_of r ++ wrap_all E fs)%list;
                serviceDir := serviceDir r;
                controllerDir := controllerDir r |}.
Proof.
  induction fs as [|[f o] fs IH]; intros r; simpl.
  - rewrite app_nil_r. destruct r; reflexivity.
  - rewrite IH. simpl. rewrite <- app_assoc. reflexivity.
Qed.

Lemma use_all_rejects (v options : value) (entries : list (useArg * value)) :
  In (ArgOther v, options) entries ->
  forall r, use_all E r entries = Abrupt (TypeError E "middleware must be a function").
Proof.
  induction entries as [|[fn o] entries IH]; intros Hin r; [contradiction|].
  destruct fn as [f|u]; simpl; [|reflexivity].
  apply IH. destruct Hin as [Heq|Hin]; [discriminate Heq|exact Hin].
Qed.

Lemma new_Router_unfold (cfg : option RouterOptions) (sdir cdir : string) :
  pathResolve E (base_of E (config_of cfg)) SERVICE_DIR = Normal sdir ->
  pathResolve E (base_of E (config_of cfg)) CONTROLLER_DIR = Normal cdir ->
  new_Router E cfg
  = match cfg_middleware (config_of cfg) with
    | None => Normal {| config := config_of cfg; middleware_of := [http_entry E];
                        serviceDir := sdir; controllerDir := cdir |}
    | Some entries =>
        use_all E {| config := config_of cfg; middleware_of := [http_entry E];
                     serviceDir := sdir; controllerDir := cdir |} entries
    end.
Proof.
  intros Hs Hc. unfold new_Router, base_of, config_of in *.
  rewrite Hs. cbn [bind]. rewrite Hc. cbn [bind]. reflexivity.
Qed.

End ConstructionFacts.

(** ** Resolution at any depth *)

Section ResolutionFacts.

Variable E : Host.

Lemma paths_app_slash (s t : string) :
  paths_of (s ++ "/" ++ t) = (paths_of s ++ paths_of t)%list.
Proof.
  unfold paths_of.
  change (s ++ "/" ++ t)%string with (s ++ String Str.slash t)%string.
  rewrite PathFacts.split_app, filter_app. reflexivity.
Qed.

Lemma paths_trailing_slash (a : string) : paths_of (a ++ "/") = paths_of a.
Proof.
  change (a ++ "/")%string with (a ++ "/" ++ "")%string.
  rewrite paths_app_slash. unfold paths_of at 2. simpl. apply app_nil_r.
Qed.

Lemma paths_join (segs : list string) :
  segments segs = true -> paths_of (join segs) = segs.
Proof.
  induction segs as [|s rest IH]; intros H; [reflexivity|].
  unfold segments in H. simpl in H. apply andb_true_iff in H as [Hs Hrest].
  destruct rest as [|r rest].
  - exact (PathFacts.paths_of_segment s Hs).
  - rewrite PathFacts.join_cons, paths_app_slash, (PathFacts.paths_of_segment s Hs).
    rewrite (IH Hrest). reflexivity.
Qed.

Lemma segments_snoc (ns : list string) (m : string) :
  segments (ns ++ [m]) = true -> segments ns = true /\ Str.segment m = true.
Proof.
  unfold segments. rewrite forallb_app. simpl. rewrite andb_true_r.
  intros H. apply andb_true_iff in H. exact H.
Qed.

(** The resolver on the action [ns1/.../nsk/m] written without stray
    slashes. *)
Lemma controller_joined (ctx : Ctx) (ns : list string) (m : string) (c : value) :
  segments (ns ++ [m]) = true -> ns <> [] -> Str.regexp_literal m = true ->
  parseAction E (event ctx) = VStr (join (ns ++ [m])) ->
  walk E (controllers ctx) ns = Normal c ->
  controller E ctx =
  (if negb (truthy c) then
     Normal (error ("controller/" ++ join ns ++ " not found"))
   else
     match read E c m with
     | VFun f _ => Normal (Action (VStr m) c f)
     | _ => Normal (error ("controller/" ++ join ns ++ "." ++ m ++ " is not a function"))
     end).
Proof.
  intros Hsegs Hns Hlit Hp Hwalk.
  rewrite (controller_paths E ctx _ ns m Hp (paths_join _ Hsegs) Hns).
  rewrite Hwalk. cbn [bind].
  rewrite (PathFacts.join_snoc ns m Hns).
  rewrite (replace_tail_suffix E (join ns) m "" Hlit eq_refl).
  assert (Hplain : Str.plain_replacement ("." ++ m) = true)
    by (simpl; apply (literal_is_plain m Hlit)).
  rewrite (replace_tail_suffix E (join ns) m ("." ++ m) Hlit Hplain).
  cbn [bind]. rewrite append_nil_r.
  destruct (negb (truthy c)); [reflexivity|].
  destruct (read E c m); rewrite ?append_assoc; reflexivity.
Qed.


(** The constructor and [use] put nothing but wrappers in the sequence. *)
Lemma wrap_all_wrappers (fs : list (jsfunc * value)) :
  forallb is_wrapper (wrap_all E fs) = true.
Proof. induction fs as [|p fs IH]; simpl; [reflexivity|exact IH]. Qed.

Lemma only_action_is_the_controller (r : Router) (c : middleware)
  (tag receiver : value) (f : fid) :
  forallb is_wrapper (middleware_of r) = true ->
  In (Action tag receiver f) (chain_for E r c) ->
  c = Action tag receiver f.
Proof.
  intros Hw Hin. unfold chain_for in Hin.
  destruct (is_string "error" (mw_name c)).
  - destruct Hin as [H|[H|[]]]; [discriminate H|exact H].
  - apply in_app_or in Hin as [Hin|[H|[]]]; [|exact H].
    rewrite forallb_forall in Hw. specialize (Hw _ Hin). discriminate Hw.
Qed.

End ResolutionFacts.

(** ** Which functions an invocation enters *)

Section EnteredFacts.

Variable E : Host.

(** A middleware function found in the log is the transport middleware or
    the function of a registered wrapper whose predicate held. *)
Lemma entered_function (r : Router) (ev cx : value) (w : world) (o : completion value)
  (f : jsfunc) :
  forallb is_wrapper (middleware_of r) = true ->
  serve_chain E r ev cx = Some (w, o) ->
  In (CallFn f) (w_calls w) ->
  f = http E
  \/ exists tag matchFn, In (Wrapper tag matchFn f) (middleware_of r)
                         /\ exists ctx, matchFn ctx = true.
Proof.
  intros Hwrap Hchain Hin.
  destruct (controller E (serve_context E r ev cx)) as [c|e] eqn:Hc;
    [|unfold serve_chain in Hchain; rewrite Hc in Hchain; discriminate Hchain].
  pose proof (log_from_chain E r ev cx c w o Hc Hchain) as Hlog.
  rewrite Forall_forall in Hlog. specialize (Hlog _ Hin). simpl in Hlog.
  assert (Hshape : forall m, In m (chain_for E r c) ->
                             m = Plain (http E) \/ m = c \/ In m (middleware_of r)).
  { intros m Hm. unfold chain_for in Hm. destruct (is_string "error" (mw_name c)).
    - destruct Hm as [H|[H|[]]]; [left|right; left]; symmetry; exact H.
    - apply in_app_or in Hm as [Hm|[H|[]]]; [right; right; exact Hm|].
      right. left. symmetry. exact H. }
  assert (Hnot : forall m, m = c -> is_wrapper m = false /\ forall g, m <> Plain g).
  { intros m ->. destruct (controller_shape E _ c Hc) as [[msg ->]|(t & rc & g & ->)];
      split; try reflexivity; intros g'; discriminate. }
  rewrite forallb_forall in Hwrap.
  destruct Hlog as [Hplain|(tag & matchFn & Hw & Hctx)].
  - destruct (Hshape _ Hplain) as [H|[H|H]].
    + injection H as ->. left. reflexivity.
    + destruct (Hnot _ H) as [_ Hn]. exfalso. exact (Hn f eq_refl).
    + specialize (Hwrap _ H). discriminate Hwrap.
  - destruct (Hshape _ Hw) as [H|[H|H]].
    + discriminate H.
    + destruct (Hnot _ H) as [Hn _]. discriminate Hn.
    + right. exists tag, matchFn. split; assumption.
Qed.

Lemma truthy_js_or (a b : value) : truthy b = true -> truthy (js_or a b) = true.
Proof.
  intros Hb. unfold js_or. destruct (truthy a) eqn:Ha; [exact Ha|exact Hb].
Qed.

Lemma is_true_spec (v : value) : is_true v = true <-> v = VBool true.
Proof.
  split; [|intros ->; reflexivity].
  destruct v as [| |[|]| | | |]; try discriminate. reflexivity.
Qed.

End EnteredFacts.

(** ** The order in which a chain is entered *)

Section OrderFacts.

Variable E : Host.

Lemma subseq_nil_l {A : Type} (big : list A) : subseq [] big.
Proof. induction big; constructor; assumption. Qed.

Lemma subseq_filter_length {A : Type} (p : A -> bool) (l big : list A) :
  subseq l big -> (length (filter p l) <= length (filter p big))%nat.
Proof.
  induction 1 as [|x l big H IH|x l big H IH]; simpl.
  - lia.
  - destruct (p x); simpl; lia.
  - destruct (p x); simpl; lia.
Qed.

Lemma run_in_order (j : Z) (later : list call) (next : step) (a : act) :
  dispatches E j later next ->
  forall w,
    w_index w <= w_index (fst (run a next w))
    /\ (j <= w_index w -> w_calls (fst (run a next w)) = w_calls w)
    /\ exists l, w_calls (fst (run a next w)) = (w_calls w ++ l)%list /\ subseq l later.
Proof.
  intros Hnext. induction a as [v|e|k IH|c k IH|k IH]; intros w; simpl.
  - split; [lia|]. split; [reflexivity|]. exists []. rewrite app_nil_r.
    split; [reflexivity|apply subseq_nil_l].
  - split; [lia|]. split; [reflexivity|]. exists []. rewrite app_nil_r.
    split; [reflexivity|apply subseq_nil_l].
  - apply IH.
  - apply (IH (with_ctx c w)).
  - destruct (Hnext w) as [Hagain Hfirst].
    destruct (Z_lt_le_dec (w_index w) j) as [Hlt|Hge].
    + destruct (Hfirst Hlt) as (Hidx & l & Hl & Hsub).
      destruct (next w) as [w' r]. simpl in Hidx, Hl.
      destruct (IH r w') as (Hmono & Hsame & _).
      split; [lia|]. split; [intros Hj; lia|].
      exists l. rewrite (Hsame Hidx). split; assumption.
    + rewrite (Hagain Hge). destruct (IH (Abrupt (Error E "next() called multiple times")) w)
        as (Hmono & Hsame & Hl).
      split; [exact Hmono|]. split; [intros _; exact (Hsame Hge)|exact Hl].
Qed.

Lemma dispatch_in_order (rest : list middleware) :
  forall i, dispatches E i (map call_of rest) (dispatch E rest i).
Proof.
  induction rest as [|m rest IH]; intros i w.
  - split.
    + intros Hge. simpl. apply Z.leb_le in Hge. rewrite Hge. reflexivity.
    + intros Hlt. simpl. replace (i <=? w_index w) with false
        by (symmetry; apply Z.leb_gt; exact Hlt).
      simpl. split; [lia|]. exists []. rewrite app_nil_r. split; [reflexivity|constructor].
  - split.
    + intros Hge. simpl. apply Z.leb_le in Hge. rewrite Hge. reflexivity.
    + intros Hlt. cbn [dispatch]. replace (i <=? w_index w) with false
        by (symmetry; apply Z.leb_gt; exact Hlt).
      assert (Hentered : forall f,
        i <= w_index (fst (call_fn f (dispatch E rest (i + 1)) (with_index i w)))
        /\ exists l,
             w_calls (fst (call_fn f (dispatch E rest (i + 1)) (with_index i w)))
             = (w_calls w ++ l)%list
             /\ subseq l (CallFn f :: map call_of rest)).
      { intros f. unfold call_fn.
        destruct (run_in_order (i + 1) (map call_of rest) (dispatch E rest (i + 1))
                    (fn_body f) (IH (i + 1))
                    (record_call (CallFn f) (with_index i w))) as (Hmono & _ & l & Hl & Hsub).
        simpl in Hmono. split; [exact Hmono|].
        exists (CallFn f :: l). rewrite Hl. simpl. rewrite <- app_assoc.
        split; [reflexivity|constructor; exact Hsub]. }
      destruct m as [f|tag matchFn fn|message|tag receiver method]; cbn [apply map call_of].
      * apply Hentered.
      * cbn [with_index w_ctx]. destruct (matchFn (w_ctx w)); cbn [negb].
        -- apply Hentered.
        -- destruct (IH (i + 1) (with_index i w)) as [_ Hfirst].
           destruct Hfirst as (Hidx & l & Hl & Hsub); [simpl; lia|].
           split; [lia|]. exists l. split; [exact Hl|constructor; exact Hsub].
      * simpl. split; [lia|]. exists [CallError message].
        split; [reflexivity|constructor; apply subseq_nil_l].
      * assert (Hres : forall c,
          i <= w_index (with_ctx c (record_call (CallMethod method receiver) (with_index i w)))
          /\ exists l,
               w_calls (with_ctx c (record_call (CallMethod method receiver) (with_index i w)))
               = (w_calls w ++ l)%list
               /\ subseq l (CallMethod method receiver :: map call_of rest)).
        { intros c. simpl. split; [lia|]. exists [CallMethod method receiver].
          split; [reflexivity|constructor; apply subseq_nil_l]. }
        destruct (invoke E method receiver
                    (w_ctx (record_call (CallMethod method receiver) (with_index i w))))
          as [c [v|e]]; [destruct (is_defined v)|]; cbn [fst];
          first [exact (Hres c) | exact (Hres (set_body v c))].
Qed.

(** The log of an invocation is the composed chain with some entries left
    out, in the order of the chain. *)
Lemma executed_in_order (r : Router) (ev cx : value) (c : middleware)
  (w : world) (o : completion value) :
  controller E (serve_context E r ev cx) = Normal c ->
  serve_chain E r ev cx = Some (w, o) ->
  subseq (w_calls w) (map call_of (chain_for E r c)).
Proof.
  intros Hc. unfold serve_chain. rewrite Hc. intros [= H].
  assert (Hw : w = fst (compose E (chain_for E r c) (serve_context E r ev cx)))
    by (rewrite H; reflexivity).
  subst w. unfold compose.
  destruct (dispatch_in_order (chain_for E r c) 0
              {| w_ctx := serve_context E r ev cx; w_index := -1; w_calls := [] |})
    as [_ Hfirst].
  destruct Hfirst as (_ & l & Hl & Hsub); [simpl; lia|].
  rewrite Hl. exact Hsub.
Qed.

End OrderFacts.

Section OnceFacts.

Variable E : Host.

Lemma wrappers_log_no_method (l : list middleware) :
  forallb is_wrapper l = true -> filter is_method_call (map call_of l) = [].
Proof.
  induction l as [|m l IH]; simpl; [reflexivity|].
  intros H. apply andb_true_iff in H as [Hm Hl].
  destruct m; try discriminate Hm. simpl. exact (IH Hl).
Qed.

Lemma chain_has_one_method (r : Router) (c : middleware) :
  forallb is_wrapper (middleware_of r) = true ->
  (length (filter is_method_call (map call_of (chain_for E r c))) <= 1)%nat.
Proof.
  intros Hwrap. unfold chain_for. destruct (is_string "error" (mw_name c)).
  - simpl. destruct (is_method_call (call_of c)); simpl; lia.
  - rewrite map_app, filter_app, (wrappers_log_no_method _ Hwrap). simpl.
    destruct (is_method_call (call_of c)); simpl; lia.
Qed.

End OnceFacts.

Section ThrowFacts.

Variable E : Host.

(** With a literal method name the rewriting of the action cannot throw. *)
Lemma replace_tail_literal (a m repl : string) :
  Str.regexp_literal m = true -> Str.plain_replacement repl = true ->
  exists p, replace_tail E a m repl = Normal p.
Proof.
  intros Hm Hr. unfold replace_tail. rewrite Hm, Hr. simpl.
  destruct (Str.strip_suffix _ a); eexists; reflexivity.
Qed.

(** The walk throws exactly when a node that still has a segment to be read
    off it is [undefined] or [null]. *)
Lemma walk_throws (ns : list string) :
  forall root,
    (exists e, walk E root ns = Abrupt e)
    <-> exists k v, (k < length ns)%nat
                    /\ walk E root (firstn k ns) = Normal v /\ nullish v = true.
Proof.
  induction ns as [|s rest IH]; intros root; simpl.
  - split; [intros [e H]; discriminate H|intros (k & v & Hk & _); lia].
  - destruct (nullish root) eqn:Hroot.
    + split.
      * intros _. exists 0%nat, root. split; [lia|]. split; [reflexivity|exact Hroot].
      * intros _. rewrite (get_prop_nullish E root s Hroot). eexists. reflexivity.
    + rewrite (get_prop_present E root s Hroot). cbn [bind]. rewrite IH. split.
      * intros (k & v & Hk & Hwalk & Hv). exists (S k), v. split; [lia|].
        simpl. rewrite (get_prop_present E root s Hroot). cbn [bind].
        split; assumption.
      * intros (k & v & Hk & Hwalk & Hv). destruct k as [|k].
        -- simpl in Hwalk. injection Hwalk as <-. rewrite Hroot in Hv. discriminate Hv.
        -- simpl in Hwalk. rewrite (get_prop_present E root s Hroot) in Hwalk.
           cbn [bind] in Hwalk. exists k, v. split; [lia|]. split; assumption.
Qed.

Lemma controller_throws_with_walk (ctx : Ctx) (a : string) (ns : list string) (m : string) :
  parseAction E (event ctx) = VStr a ->
  paths_of a = (ns ++ [m])%list -> ns <> [] ->
  Str.regexp_literal m = true ->
  (exists e, controller E ctx = Abrupt e)
  <-> (exists e, walk E (controllers ctx) ns = Abrupt e).
Proof.
  intros Hp Hpaths Hns Hlit.
  rewrite (controller_paths E ctx a ns m Hp Hpaths Hns).
  destruct (walk E (controllers ctx) ns) as [c|e]; cbn [bind].
  - split; [|intros [e H]; discriminate H]. intros [e H]. exfalso.
    destruct (replace_tail_literal a m "" Hlit eq_refl) as [p1 H1].
    assert (Hplain : Str.plain_replacement ("." ++ m) = true)
      by (simpl; apply (literal_is_plain m Hlit)).
    destruct (replace_tail_literal a m ("." ++ m) Hlit Hplain) as [p2 H2].
    rewrite H1, H2 in H. cbn [bind] in H.
    destruct (negb (truthy c)); [discriminate H|].
    destruct (read E c m); discriminate H.
  - split; intros _; eexists; reflexivity.
Qed.

End ThrowFacts.

Module Extras.

(** X1: [new Router(config)] whose configured middleware are all functions
    registers the transport middleware and then the configured ones, each
    wrapped with its own options, in the order of the array; a [middleware]
    field that is not an array leaves the transport middleware alone. *)
Theorem constructor_registers_in_order
  (E : Host) (cfg : option RouterOptions) (sdir cdir : string) :
  pathResolve E (base_of E (config_of cfg)) SERVICE_DIR = Normal sdir ->
  pathResolve E (base_of E (config_of cfg)) CONTROLLER_DIR = Normal cdir ->
  (forall fs,
      cfg_middleware (config_of cfg) = Some (as_entries fs) ->
      new_Router E cfg
      = Normal {| config := config_of cfg;
                  middleware_of := http_entry E :: wrap_all E fs;
                  serviceDir := sdir; controllerDir := cdir |})
  /\ (cfg_middleware (config_of cfg) = None ->
      new_Router E cfg
      = Normal {| config := config_of cfg; middleware_of := [http_entry E];
                  serviceDir := sdir; controllerDir := cdir |}).
Proof.
  intros Hs Hc. split.
  - intros fs Hfs. rewrite (new_Router_unfold E cfg sdir cdir Hs Hc), Hfs.
    rewrite use_all_functions. reflexivity.
  - intros Hnone. rewrite (new_Router_unfold E cfg sdir cdir Hs Hc), Hnone. reflexivity.
Qed.

Lemma constructor_registers_witness :
  new_Router demoHost
    (Some (Demo.options VUndefined [(ArgFn Demo.counter, VUndefined);
                                    (ArgFn shortcut, VObj [("name", VStr "cache")])]))
  = Normal {| config := Demo.options VUndefined
                          [(ArgFn Demo.counter, VUndefined);
                           (ArgFn shortcut, VObj [("name", VStr "cache")])];
              middleware_of :=
                [http_entry demoHost;
                 wrapMiddleware demoHost Demo.counter VUndefined;
                 wrapMiddleware demoHost shortcut (VObj [("name", VStr "cache")])];
              serviceDir := "/app/service"; controllerDir := "/app/controller" |}
  /\ new_Router demoHost None
     = Normal {| config := empty_options; middleware_of := [http_entry demoHost];
                 serviceDir := "/var/task/service";
                 controllerDir := "/var/task/controller" |}.
Proof.
  split.
  - apply (proj1 (constructor_registers_in_order demoHost
                    (Some (Demo.options VUndefined
                             [(ArgFn Demo.counter, VUndefined);
                              (ArgFn shortcut, VObj [("name", VStr "cache")])]))
                    "/app/service" "/app/controller" eq_refl eq_refl)
             [(Demo.counter, VUndefined); (shortcut, VObj [("name", VStr "cache")])]).
    reflexivity.
  - apply (proj2 (constructor_registers_in_order demoHost None
                    "/var/task/service" "/var/task/controller" eq_refl eq_refl)).
    reflexivity.
Defined.

(** X2: when some configured middleware is not a function, the constructor
    throws the [TypeError] of [use] and no router comes out, wherever the
    entry stands in the array. *)
Theorem constructor_rejects_non_function
  (E : Host) (cfg : option RouterOptions) (sdir cdir : string)
  (entries : list (useArg * value)) (v options : value) :
  pathResolve E (base_of E (config_of cfg)) SERVICE_DIR = Normal sdir ->
  pathResolve E (base_of E (config_of cfg)) CONTROLLER_DIR = Normal cdir ->
  cfg_middleware (config_of cfg) = Some entries ->
  In (ArgOther v, options) entries ->
  new_Router E cfg = Abrupt (TypeError E "middleware must be a function").
Proof.
  intros Hs Hc Hentries Hin.
  rewrite (new_Router_unfold E cfg sdir cdir Hs Hc), Hentries.
  exact (use_all_rejects E v options entries Hin _).
Qed.

Lemma constructor_rejects_witness :
  new_Router demoHost
    (Some (Demo.options VUndefined [(ArgFn Demo.counter, VUndefined);
                                    (ArgOther (VStr "auth"), VUndefined)]))
  = Abrupt (TypeError demoHost "middleware must be a function").
Proof.
  apply (constructor_rejects_non_function demoHost
           (Some (Demo.options VUndefined [(ArgFn Demo.counter, VUndefined);
                                           (ArgOther (VStr "auth"), VUndefined)]))
           "/app/service" "/app/controller"
           [(ArgFn Demo.counter, VUndefined); (ArgOther (VStr "auth"), VUndefined)]
           (VStr "auth") VUndefined eq_refl eq_refl eq_refl).
  right. left. reflexivity.
Defined.

(** X3: leading, trailing and doubled slashes of an action do not count:
    the segments of [s/t] are those of [s] followed by those of [t], and a
    slash in front or at the end adds nothing. *)
Theorem stray_slashes_are_dropped (s t : string) :
  paths_of (s ++ "/" ++ t) = (paths_of s ++ paths_of t)%list
  /\ paths_of ("/" ++ s) = paths_of s
  /\ paths_of (s ++ "/") = paths_of s
  /\ paths_of (s ++ "//" ++ t) = (paths_of s ++ paths_of t)%list.
Proof.
  split; [apply paths_app_slash|]. split; [reflexivity|].
  split; [apply paths_trailing_slash|].
  change (s ++ "//" ++ t)%string with (s ++ "/" ++ ("/" ++ t))%string.
  rewrite paths_app_slash. reflexivity.
Qed.

(** X4: splitting undoes joining: the action made of well-formed segments
    joined by [/] has exactly these segments, in order. *)
Theorem segments_of_joined_action (segs : list string) :
  segments segs = true -> paths_of (join segs) = segs.
Proof. exact (paths_join segs). Qed.

Lemma segments_of_joined_witness :
  paths_of (join ["admin"; "user"; "profile"; "update"])
  = ["admin"; "user"; "profile"; "update"].
Proof.
  apply (segments_of_joined_action ["admin"; "user"; "profile"; "update"]).
  reflexivity.
Defined.

(** X5: an action of two or more segments whose namespace path leads to a
    truthy node holding a function under the method name resolves to that
    function with the node as receiver and the method name as tag; and in
    the invocation no other method is ever called, the router holding only
    wrappers. *)
Theorem resolved_method_and_receiver
  (E : Host) (r : Router) (ev cx : value) (a : string) (ns : list string) (m : string)
  (c : value) (f : fid) (props : list (string * value))
  (w : world) (o : completion value) :
  parseAction E (event (serve_context E r ev cx)) = VStr a ->
  paths_of a = (ns ++ [m])%list -> ns <> [] ->
  walk E (controllers (serve_context E r ev cx)) ns = Normal c ->
  truthy c = true ->
  read E c m = VFun f props ->
  forallb is_wrapper (middleware_of r) = true ->
  serve_chain E r ev cx = Some (w, o) ->
  controller E (serve_context E r ev cx) = Normal (Action (VStr m) c f)
  /\ forall f' receiver, In (CallMethod f' receiver) (w_calls w) ->
                         f' = f /\ receiver = c.
Proof.
  intros Hp Hpaths Hns Hwalk Htruthy Hread Hwrap Hchain.
  assert (Hc : controller E (serve_context E r ev cx) = Normal (Action (VStr m) c f)).
  { rewrite (controller_paths E _ a ns m Hp Hpaths Hns), Hwalk. cbn [bind].
    rewrite Htruthy, Hread. reflexivity. }
  split; [exact Hc|]. intros f' receiver Hin.
  pose proof (log_from_chain E r ev cx _ w o Hc Hchain) as Hlog.
  rewrite Forall_forall in Hlog. destruct (Hlog _ Hin) as [tag Htag].
  apply (only_action_is_the_controller E r _ tag receiver f' Hwrap) in Htag.
  injection Htag as _ -> ->. split; reflexivity.
Qed.

Lemma resolved_method_witness :
  controller demoHost
    (serve_context demoHost countingRouter (Demo.request "/ns//sub/run/") VUndefined)
  = Normal (Action (VStr "run") (read demoHost (read demoHost Demo.tree "ns") "sub") 0%nat)
  /\ forall f' receiver,
       In (CallMethod f' receiver)
          (executed demoHost countingRouter (Demo.request "/ns//sub/run/") VUndefined) ->
       f' = 0%nat /\ receiver = read demoHost (read demoHost Demo.tree "ns") "sub".
Proof.
  apply (resolved_method_and_receiver demoHost countingRouter
           (Demo.request "/ns//sub/run/") VUndefined "/ns//sub/run/" ["ns"; "sub"] "run"
           (read demoHost (read demoHost Demo.tree "ns") "sub") 0%nat []
           (fst (compose demoHost
                   (chain_for demoHost countingRouter
                      (Action (VStr "run")
                         (read demoHost (read demoHost Demo.tree "ns") "sub") 0%nat))
                   (serve_context demoHost countingRouter
                      (Demo.request "/ns//sub/run/") VUndefined)))
           (Normal VUndefined));
    try reflexivity. discriminate.
Defined.

(** X6: for an action [ns1/.../nsk/m] of any depth, written without stray
    slashes and with a method name of literal characters, whose namespace
    walk ends on a falsy node, [serve] resolves to the failure
    [controller/ns1/.../nsk not found]; an action of two segments reports
    its missing first node this way. *)
Theorem not_found_at_any_depth
  (E : Host) (r : Router) (ev cx : value) (ns : list string) (m : string)
  (c : value) (c1 : Ctx) :
  segments (ns ++ [m]) = true -> ns <> [] -> Str.regexp_literal m = true ->
  parseAction E (event (serve_context E r ev cx)) = VStr (join (ns ++ [m])) ->
  walk E (controllers (serve_context E r ev cx)) ns = Normal c ->
  truthy c = false ->
  httpDecode E (serve_context E r ev cx) = Normal c1 ->
  serve E r ev cx
  = Resolved (usage_failure E r ("controller/" ++ join ns ++ " not found")).
Proof.
  intros Hsegs Hns Hlit Hp Hwalk Hfalsy Hd.
  apply serve_usage_error with (c1 := c1); [|exact Hd|discriminate].
  rewrite (controller_joined E _ ns m c Hsegs Hns Hlit Hp Hwalk), Hfalsy. reflexivity.
Qed.

Lemma not_found_at_any_depth_witness :
  serve demoHost demoRouter (Demo.request "nope/run") VUndefined
  = Resolved (usage_failure demoHost demoRouter "controller/nope not found")
  /\ serve demoHost demoRouter (Demo.request "ns/sub/data/deep/run") VUndefined
     = Resolved (usage_failure demoHost demoRouter "controller/ns/sub/data/deep not found").
Proof.
  split.
  - apply (not_found_at_any_depth demoHost demoRouter (Demo.request "nope/run") VUndefined
             ["nope"] "run" VUndefined
             (serve_context demoHost demoRouter (Demo.request "nope/run") VUndefined));
      try reflexivity. discriminate.
  - apply (not_found_at_any_depth demoHost demoRouter
             (Demo.request "ns/sub/data/deep/run") VUndefined
             ["ns"; "sub"; "data"; "deep"] "run" VUndefined
             (serve_context demoHost demoRouter
                (Demo.request "ns/sub/data/deep/run") VUndefined));
      try reflexivity. discriminate.
Defined.

(** X7: for such an action whose namespace walk ends on a truthy node
    without a function under the method name, [serve] resolves to the
    failure [controller/ns1/.../nsk.m is not a function]: for two segments
    the message is [controller/ns.m is not a function]. *)
Theorem not_a_function_at_any_depth
  (E : Host) (r : Router) (ev cx : value) (ns : list string) (m : string)
  (c : value) (c1 : Ctx) :
  segments (ns ++ [m]) = true -> ns <> [] -> Str.regexp_literal m = true ->
  parseAction E (event (serve_context E r ev cx)) = VStr (join (ns ++ [m])) ->
  walk E (controllers (serve_context E r ev cx)) ns = Normal c ->
  truthy c = true ->
  is_function (read E c m) = false ->
  httpDecode E (serve_context E r ev cx) = Normal c1 ->
  serve E r ev cx
  = Resolved (usage_failure E r
                ("controller/" ++ join ns ++ "." ++ m ++ " is not a function")).
Proof.
  intros Hsegs Hns Hlit Hp Hwalk Htruthy Hfun Hd.
  apply serve_usage_error with (c1 := c1); [|exact Hd|discriminate].
  rewrite (controller_joined E _ ns m c Hsegs Hns Hlit Hp Hwalk), Htruthy. cbn [negb].
  destruct (read E c m); try reflexivity. discriminate Hfun.
Qed.

Lemma not_a_function_at_any_depth_witness :
  serve demoHost demoRouter (Demo.request "ns/list") VUndefined
  = Resolved (usage_failure demoHost demoRouter "controller/ns.list is not a function").
Proof.
  apply (not_a_function_at_any_depth demoHost demoRouter (Demo.request "ns/list") VUndefined
           ["ns"] "list" (read demoHost Demo.tree "ns")
           (serve_context demoHost demoRouter (Demo.request "ns/list") VUndefined));
    try reflexivity. discriminate.
Defined.



(** X9: a handler method named [error] carries the tag that [serve] takes
    for the synthetic error handler: the action resolves, yet the chain is
    the transport middleware followed by the handler, and the registered
    middleware are not entered. *)
Theorem method_named_error_skips_middleware
  (E : Host) (r : Router) (ev cx : value) (a : string) (ns : list string)
  (c : value) (f : fid) (props : list (string * value)) (c1 : Ctx) :
  parseAction E (event (serve_context E r ev cx)) = VStr a ->
  paths_of a = (ns ++ ["error"])%list -> ns <> [] ->
  walk E (controllers (serve_context E r ev cx)) ns = Normal c ->
  truthy c = true ->
  read E c "error" = VFun f props ->
  httpDecode E (serve_context E r ev cx) = Normal c1 ->
  controller E (serve_context E r ev cx) = Normal (Action (VStr "error") c f)
  /\ chain_for E r (Action (VStr "error") c f)
     = [Plain (http E); Action (VStr "error") c f]
  /\ executed E r ev cx = [CallFn (http E); CallMethod f c].
Proof.
  intros Hp Hpaths Hns Hwalk Htruthy Hread Hd.
  assert (Hc : controller E (serve_context E r ev cx) = Normal (Action (VStr "error") c f)).
  { rewrite (controller_paths E _ a ns "error" Hp Hpaths Hns), Hwalk. cbn [bind].
    rewrite Htruthy, Hread. reflexivity. }
  split; [exact Hc|]. split; [reflexivity|].
  unfold executed, serve_chain. rewrite Hc.
  unfold chain_for, compose. simpl. unfold call_fn. simpl. rewrite Hd. simpl.
  destruct (invoke E f c c1) as [c2 [v|e]]; simpl; [|reflexivity].
  destruct (is_defined v); simpl;
    match goal with |- context [httpEncode E ?x] => destruct (httpEncode E x) end;
    reflexivity.
Qed.

Lemma method_named_error_witness :
  controller errorNamedHost
    (serve_context errorNamedHost errorNamedRouter (Demo.request "ns/error") VUndefined)
  = Normal (Action (VStr "error") (read errorNamedHost (VObj [("ns", VObj [("error", VFun 0%nat [])])]) "ns") 0%nat)
  /\ chain_for errorNamedHost errorNamedRouter
       (Action (VStr "error") (read errorNamedHost (VObj [("ns", VObj [("error", VFun 0%nat [])])]) "ns") 0%nat)
     = [Plain (http errorNamedHost);
        Action (VStr "error") (read errorNamedHost (VObj [("ns", VObj [("error", VFun 0%nat [])])]) "ns") 0%nat]
  /\ executed errorNamedHost errorNamedRouter (Demo.request "ns/error") VUndefined
     = [CallFn (http errorNamedHost);
        CallMethod 0%nat (read errorNamedHost (VObj [("ns", VObj [("error", VFun 0%nat [])])]) "ns")].
Proof.
  apply (method_named_error_skips_middleware errorNamedHost errorNamedRouter
           (Demo.request "ns/error") VUndefined "ns/error" ["ns"]
           (read errorNamedHost (VObj [("ns", VObj [("error", VFun 0%nat [])])]) "ns")
           0%nat []
           (serve_context errorNamedHost errorNamedRouter (Demo.request "ns/error") VUndefined));
    try reflexivity. discriminate.
Defined.

(** X10: for a failure value that is neither [undefined] nor [null],
    [failed] returns an object that starts with [code] and [message]; with
    a truthy default code its [code] is truthy, its [message] is truthy
    whenever the failure value is, and the [stack] field is there only for
    [debug === true]: any other value of [debug], truthy ones included,
    gives the two fields alone. *)
Theorem failure_object_shape (E : Host) (r : Router) (err : value) :
  nullish err = false ->
  truthy (FAILED_CODE E) = true ->
  exists code message,
    failed E r err
    = Normal (VObj ([("code", code); ("message", message)]
                    ++ (if is_true (debug (config r))
                        then [("stack", js_or (read E err "stack") (VStr ""))]
                        else [])))
    /\ truthy code = true
    /\ (truthy err = true -> truthy message = true)
    /\ (debug (config r) <> VBool true ->
        failed E r err = Normal (VObj [("code", code); ("message", message)])).
Proof.
  intros Herr Hdefault.
  exists (js_or (read E err "code") (FAILED_CODE E)), (js_or (read E err "message") err).
  rewrite (failed_not_nullish E r err Herr).
  split; [reflexivity|]. split; [exact (truthy_js_or _ _ Hdefault)|].
  split; [intros Ht; exact (truthy_js_or _ _ Ht)|].
  intros Hdebug. destruct (is_true (debug (config r))) eqn:Hd; [|reflexivity].
  apply is_true_spec in Hd. contradiction.
Qed.

Lemma failure_object_shape_witness :
  exists code message,
    failed demoHost (Demo.router demoHost (Demo.options (VNum 1) [])) (VStr "boom")
    = Normal (VObj ([("code", code); ("message", message)] ++ []))
    /\ truthy code = true
    /\ (true = true -> truthy message = true)
    /\ (VNum 1 <> VBool true ->
        failed demoHost (Demo.router demoHost (Demo.options (VNum 1) [])) (VStr "boom")
        = Normal (VObj [("code", code); ("message", message)])).
Proof.
  apply (failure_object_shape demoHost (Demo.router demoHost (Demo.options (VNum 1) []))
           (VStr "boom")); reflexivity.
Defined.

(** X12: in an invocation, every middleware function that is entered is
    the transport middleware or a function registered on the router whose
    match predicate held on some context: [serve] runs nothing else. *)
Theorem only_registered_functions_run
  (E : Host) (r : Router) (ev cx : value) (w : world) (o : completion value) (f : jsfunc) :
  forallb is_wrapper (middleware_of r) = true ->
  serve_chain E r ev cx = Some (w, o) ->
  In (CallFn f) (w_calls w) ->
  f = http E
  \/ exists tag matchFn, In (Wrapper tag matchFn f) (middleware_of r)
                         /\ exists ctx, matchFn ctx = true.
Proof. exact (entered_function E r ev cx w o f). Qed.

Lemma only_registered_functions_witness :
  Demo.counter = http demoHost
  \/ exists tag matchFn,
       In (Wrapper tag matchFn Demo.counter) (middleware_of countingRouter)
       /\ exists ctx, matchFn ctx = true.
Proof.
  apply (only_registered_functions_run demoHost countingRouter
           (Demo.request "ns/sub/run") VUndefined
           (fst (compose demoHost
                   (chain_for demoHost countingRouter
                      (Action (VStr "run")
                         (read demoHost (read demoHost Demo.tree "ns") "sub") 0%nat))
                   (serve_context demoHost countingRouter
                      (Demo.request "ns/sub/run") VUndefined)))
           (Normal VUndefined) Demo.counter);
    [reflexivity|reflexivity|].
  right. left. reflexivity.
Defined.

(** X13: a registered middleware whose match predicate is false on every
    context is not entered at any point of any invocation, whatever the
    other middleware and the handler do. *)
Theorem unmatched_middleware_never_runs
  (E : Host) (r : Router) (ev cx : value) (w : world) (o : completion value) (fn : jsfunc) :
  forallb is_wrapper (middleware_of r) = true ->
  (forall tag matchFn, In (Wrapper tag matchFn fn) (middleware_of r) ->
                       forall ctx, matchFn ctx = false) ->
  fn <> http E ->
  serve_chain E r ev cx = Some (w, o) ->
  ~ In (CallFn fn) (w_calls w).
Proof.
  intros Hwrap Hnever Hfn Hchain Hin.
  destruct (entered_function E r ev cx w o fn Hwrap Hchain Hin)
    as [H|(tag & matchFn & Hw & ctx & Hctx)]; [contradiction|].
  rewrite (Hnever tag matchFn Hw ctx) in Hctx. discriminate Hctx.
Qed.

Lemma unmatched_middleware_witness :
  ~ In (CallFn Demo.counter)
       (executed demoHost disabledRouter (Demo.request "ns/sub/run") VUndefined).
Proof.
  apply (unmatched_middleware_never_runs demoHost disabledRouter
           (Demo.request "ns/sub/run") VUndefined
           (fst (compose demoHost
                   (chain_for demoHost disabledRouter
                      (Action (VStr "run")
                         (read demoHost (read demoHost Demo.tree "ns") "sub") 0%nat))
                   (serve_context demoHost disabledRouter
                      (Demo.request "ns/sub/run") VUndefined)))
           (Normal VUndefined) Demo.counter).
  - reflexivity.
  - intros tag matchFn [H|[H|[]]] ctx.
    + apply (f_equal (fun m => match m with
                               | Wrapper _ _ g => fn_name g
                               | _ => ""
                               end)) in H. discriminate H.
    + injection H as _ <-. reflexivity.
  - intros H. apply (f_equal fn_name) in H. discriminate H.
  - reflexivity.
Defined.

(** X14: a matching middleware that settles without calling [next] ends
    the way in: nothing that follows it in the chain is entered, the
    handler included, and the only record it adds to the log is its own. *)
Theorem middleware_without_next_short_circuits
  (E : Host) (fn : jsfunc) (options : value) (rest : list middleware) (i : Z) (w : world) :
  w_index w < i ->
  createRouteMatch E options (w_ctx w) = true ->
  settles_alone (fn_body fn) ->
  w_calls (fst (dispatch E (wrapMiddleware E fn options :: rest) i w))
  = (w_calls w ++ [CallFn fn])%list
  /\ dispatch E (wrapMiddleware E fn options :: rest) i w
     = dispatch E [wrapMiddleware E fn options] i w.
Proof.
  intros Hi Hmatch Halone.
  assert (Hguard : (i <=? w_index w) = false) by (apply Z.leb_gt; exact Hi).
  unfold wrapMiddleware. cbn [dispatch]. rewrite Hguard.
  cbn [apply with_index w_ctx]. rewrite Hmatch. cbn [negb]. unfold call_fn.
  destruct (run_alone (fn_body fn) Halone (dispatch E rest (i + 1))
              (record_call (CallFn fn) (with_index i w))) as [Hlog Hnext].
  split; [rewrite Hlog; reflexivity|].
  symmetry. apply Hnext.
Qed.

Lemma middleware_without_next_witness :
  w_calls (fst (dispatch demoHost
                  [wrapMiddleware demoHost shortcut VUndefined;
                   Action (VStr "run") VNull 0%nat] 0
                  (start (mkCtx VNull VNull VNull VUndefined VNull))))
  = [CallFn shortcut]
  /\ dispatch demoHost
       [wrapMiddleware demoHost shortcut VUndefined; Action (VStr "run") VNull 0%nat] 0
       (start (mkCtx VNull VNull VNull VUndefined VNull))
     = dispatch demoHost [wrapMiddleware demoHost shortcut VUndefined] 0
         (start (mkCtx VNull VNull VNull VUndefined VNull)).
Proof.
  apply (middleware_without_next_short_circuits demoHost shortcut VUndefined
           [Action (VStr "run") VNull 0%nat] 0
           (start (mkCtx VNull VNull VNull VUndefined VNull)));
    [reflexivity|reflexivity|].
  apply alone_get. intros c. apply alone_put. apply alone_return.
Defined.

(** X15: what runs in an invocation is the composed chain with some
    entries left out and the order kept: middleware are entered in the
    order of their registration, the handler after them, and no entry is
    entered twice, whatever the middleware do with [next]. *)
Theorem chain_is_entered_in_order
  (E : Host) (r : Router) (ev cx : value) (w : world) (o : completion value) :
  serve_chain E r ev cx = Some (w, o) ->
  exists c, controller E (serve_context E r ev cx) = Normal c
            /\ subseq (w_calls w) (map call_of (chain_for E r c)).
Proof.
  intros Hchain.
  destruct (controller E (serve_context E r ev cx)) as [c|e] eqn:Hc.
  - exists c. split; [reflexivity|].
    exact (executed_in_order E r ev cx c w o Hc Hchain).
  - unfold serve_chain in Hchain. rewrite Hc in Hchain. discriminate Hchain.
Qed.

Lemma chain_is_entered_in_order_witness :
  exists c,
    controller demoHost
      (serve_context demoHost twiceRouter (Demo.request "ns/sub/run") VUndefined)
    = Normal c
    /\ subseq (executed demoHost twiceRouter (Demo.request "ns/sub/run") VUndefined)
         (map call_of (chain_for demoHost twiceRouter c)).
Proof.
  apply (chain_is_entered_in_order demoHost twiceRouter
           (Demo.request "ns/sub/run") VUndefined
           (fst (compose demoHost
                   (chain_for demoHost twiceRouter
                      (Action (VStr "run")
                         (read demoHost (read demoHost Demo.tree "ns") "sub") 0%nat))
                   (serve_context demoHost twiceRouter
                      (Demo.request "ns/sub/run") VUndefined)))
           (Abrupt (Error demoHost "next() called multiple times")));
    reflexivity.
Defined.

(** X16: the resolved handler method is called at most once in an
    invocation, also when a middleware calls [next] again. *)
Theorem handler_is_called_at_most_once
  (E : Host) (r : Router) (ev cx : value) (w : world) (o : completion value) :
  forallb is_wrapper (middleware_of r) = true ->
  serve_chain E r ev cx = Some (w, o) ->
  (length (filter is_method_call (w_calls w)) <= 1)%nat.
Proof.
  intros Hwrap Hchain.
  destruct (controller E (serve_context E r ev cx)) as [c|e] eqn:Hc;
    [|unfold serve_chain in Hchain; rewrite Hc in Hchain; discriminate Hchain].
  pose proof (executed_in_order E r ev cx c w o Hc Hchain) as Hsub.
  apply (subseq_filter_length is_method_call) in Hsub.
  pose proof (chain_has_one_method E r c Hwrap). lia.
Qed.

Lemma handler_is_called_at_most_once_witness :
  (length (filter is_method_call
             (executed demoHost twiceRouter (Demo.request "ns/sub/run") VUndefined))
   <= 1)%nat.
Proof.
  apply (handler_is_called_at_most_once demoHost twiceRouter
           (Demo.request "ns/sub/run") VUndefined
           (fst (compose demoHost
                   (chain_for demoHost twiceRouter
                      (Action (VStr "run")
                         (read demoHost (read demoHost Demo.tree "ns") "sub") 0%nat))
                   (serve_context demoHost twiceRouter
                      (Demo.request "ns/sub/run") VUndefined)))
           (Abrupt (Error demoHost "next() called multiple times")));
    reflexivity.
Defined.

(** X18: for an action of two or more segments with a method name of
    literal characters, the resolver throws exactly when a node of the
    namespace walk that still has a segment to be read off it is
    [undefined] or [null]; so an action of two segments never makes it
    throw over a root namespace that is an object. *)
Theorem resolver_throws_exactly_on_nullish_inner_node
  (E : Host) (ctx : Ctx) (a : string) (ns : list string) (m : string) :
  parseAction E (event ctx) = VStr a ->
  paths_of a = (ns ++ [m])%list -> ns <> [] ->
  Str.regexp_literal m = true ->
  ((exists e, controller E ctx = Abrupt e)
   <-> exists k v, (k < length ns)%nat
                   /\ walk E (controllers ctx) (firstn k ns) = Normal v
                   /\ nullish v = true)
  /\ (length ns = 1%nat -> nullish (controllers ctx) = false ->
      exists c, controller E ctx = Normal c).
Proof.
  intros Hp Hpaths Hns Hlit.
  pose proof (controller_throws_with_walk E ctx a ns m Hp Hpaths Hns Hlit) as Hiff.
  rewrite walk_throws in Hiff. split; [exact Hiff|].
  intros Hlen Hroot.
  destruct (controller E ctx) as [c|e] eqn:Hc; [exists c; reflexivity|].
  exfalso. destruct (proj1 Hiff (ex_intro _ e eq_refl)) as (k & v & Hk & Hwalk & Hv).
  assert (k = 0%nat) by lia. subst k. simpl in Hwalk. injection Hwalk as <-.
  rewrite Hroot in Hv. discriminate Hv.
Qed.

Lemma resolver_throws_witness :
  ((exists e, controller emptyHost
                (serve_context emptyHost emptyRouter (Demo.request "a/b/c/run") VUndefined)
              = Abrupt e)
   <-> exists k v, (k < 3)%nat
                   /\ walk emptyHost (VObj []) (firstn k ["a"; "b"; "c"]) = Normal v
                   /\ nullish v = true)
  /\ (3%nat = 1%nat -> nullish (VObj []) = false ->
      exists c, controller emptyHost
                  (serve_context emptyHost emptyRouter (Demo.request "a/b/c/run") VUndefined)
                = Normal c).
Proof.
  apply (resolver_throws_exactly_on_nullish_inner_node emptyHost
           (serve_context emptyHost emptyRouter (Demo.request "a/b/c/run") VUndefined)
           "a/b/c/run" ["a"; "b"; "c"] "run");
    try reflexivity. discriminate.
Defined.

End Extras.
